(** * Gumbel copula sampler of [code/fig_tail_dependence.py]

    A shallow embedding of [gumbel_copula_sample] (Marshall-Olkin sampling
    through a Chambers-Mallows-Stuck stable variate) and of the Python and
    NumPy operations it is written with.

    - Python floats and the elements of NumPy arrays are IEEE binary64
      values, modelled by [spec_float] with precision 53 and [emax] 1024.
    - Python scalar operations that can raise do so explicitly
      ([ZeroDivisionError], [OverflowError], [ValueError]).
    - NumPy's process-wide generator is an explicit state threaded through
      every draw; [np.sin], [np.cos], [np.tan], [np.exp], [np.power] and the
      two scalar samplers are the interface [NumPy] of the external library.
    - One-dimensional arrays are lists; the two-dimensional result carries
      its shape and its rows.
    - [np.errstate] only silences floating-point warnings and has no
      counterpart here; the size of the memory is not modelled. *)

From Stdlib Require Import ZArith List Bool Lia Arith Sorted.
From Stdlib Require Import Floats.SpecFloat.
Import ListNotations.

(** ** Binary64 arithmetic *)

Module F64.

Definition prec : Z := 53.
Definition emax : Z := 1024.

Definition float := spec_float.

Definition fmul : float -> float -> float := SFmul prec emax.
Definition fdiv : float -> float -> float := SFdiv prec emax.
Definition fsub : float -> float -> float := SFsub prec emax.
Definition fneg : float -> float := SFopp.
Definition feqb : float -> float -> bool := SFeqb.
Definition fltb : float -> float -> bool := SFltb.

(** Conversion of an integer, rounding to nearest even. *)
Definition of_Z (n : Z) : float := binary_normalize prec emax n 0 false.

Definition fzero : float := S754_zero false.
(** [1.0] is 2^52 * 2^-52. *)
Definition fone : float := S754_finite false 4503599627370496 (-52).
(** [1.5] is 0x1.8p+0. *)
Definition f1_5 : float := S754_finite false 6755399441055744 (-52).
(** [np.pi] is 0x1.921fb54442d18p+1. *)
Definition fpi : float := S754_finite false 7074237752028440 (-51).
(** [1e-10] is 0x1.b7cdfd9d7bdbbp-34. *)
Definition f1e_10 : float := S754_finite false 7737125245533627 (-86).

Definition is_zero (x : float) : bool :=
  match x with S754_zero _ => true | _ => false end.

Definition is_nan (x : float) : bool :=
  match x with S754_nan => true | _ => false end.

Definition is_inf (x : float) : bool :=
  match x with S754_infinity _ => true | _ => false end.

(** [np.isfinite]: neither an infinity nor a NaN. *)
Definition isfinite (x : float) : bool :=
  match x with
  | S754_zero _ | S754_finite _ _ _ => true
  | S754_infinity _ | S754_nan => false
  end.

(** The representations of binary64 values: a finite one has a normalised
    mantissa and an exponent in range. *)
Definition is_binary64 (x : float) : bool := valid_binary prec emax x.

(** The integer part of a finite value, rounding toward zero. *)
Definition trunc (x : float) : Z :=
  match x with
  | S754_finite s m e =>
      let a := match e with
               | Zneg k => Z.shiftr (Zpos m) (Zpos k)
               | _ => Z.shiftl (Zpos m) e
               end in
      if s then Z.opp a else a
  | _ => 0
  end.

End F64.
Import F64.

(** ** Python scalars and exceptions *)

Inductive exn : Type :=
| ZeroDivisionError
| OverflowError
| ValueError.

Inductive result (A : Type) : Type :=
| Ok (a : A)
| Raise (e : exn).
Arguments Ok {A} a.
Arguments Raise {A} e.

(** [x / y] on Python floats raises on a zero divisor of either sign;
    every other case is the IEEE quotient. *)
Definition py_truediv (x y : float) : result float :=
  if is_zero y then Raise ZeroDivisionError else Ok (fdiv x y).

(** Implicit conversion of an [int] operand of a float operation. *)
Definition py_float_of_int (n : Z) : result float :=
  let x := of_Z n in
  if is_inf x then Raise OverflowError else Ok x.

(** [int(x)] for a float [x]. *)
Definition py_int (x : float) : result Z :=
  if is_nan x then Raise ValueError
  else if is_inf x then Raise OverflowError
  else Ok (trunc x).

(** [L[:n]] on a sequence: a negative bound counts from the end. *)
Definition slice_to {A : Type} (n : Z) (a : list A) : list A :=
  if (n <? 0)%Z then firstn (length a - Z.to_nat (- n)) a
  else firstn (Z.to_nat n) a.

(** ** NumPy arrays *)

(** An elementwise operation on two arrays.  NumPy raises on operands of
    different lengths; every array of a call has the length of the
    oversampled draw ([draw_candidates_lengths] below), so only the
    equal-length case is ever evaluated. *)
Fixpoint zipWith {A B C : Type} (f : A -> B -> C) (a : list A) (b : list B)
  : list C :=
  match a, b with
  | x :: a', y :: b' => f x y :: zipWith f a' b'
  | _, _ => []
  end.

(** [a[m]] for a boolean mask [m] over [a], which has the length of [a]. *)
Fixpoint mask_select {A : Type} (a : list A) (m : list bool) : list A :=
  match a, m with
  | x :: a', b :: m' =>
      if b then x :: mask_select a' m' else mask_select a' m'
  | _, _ => []
  end.

(** A two-dimensional array: its shape and its rows. *)
Record ndarray2 : Type := mk_ndarray2 {
  shape : nat * nat;
  rows : list (list float)
}.

(** [np.column_stack([a, b])] of two one-dimensional arrays. *)
Definition column_stack (a b : list float) : result ndarray2 :=
  if Nat.eqb (length a) (length b)
  then Ok (mk_ndarray2 (length a, 2) (zipWith (fun x y => [x; y]) a b))
  else Raise ValueError.

(** ** The external library *)

(** What the script takes from NumPy: the state installed by
    [np.random.seed], one draw of each scalar sampler, and the elementwise
    functions. *)
Class NumPy (rng : Type) : Type := {
  seeded : Z -> rng;
  uniform1 : float -> float -> rng -> float * rng;
  exponential1 : float -> rng -> float * rng;
  np_sin : float -> float;
  np_cos : float -> float;
  np_tan : float -> float;
  np_exp : float -> float;
  np_power : float -> float -> float
}.

Section Sampler.

Context {rng : Type} {NP : NumPy rng}.

(** A computation over the global generator that may raise. *)
Definition M (A : Type) : Type := rng -> result A * rng.

Definition ret {A : Type} (a : A) : M A := fun s => (Ok a, s).

Definition bind {A B : Type} (c : M A) (k : A -> M B) : M B :=
  fun s =>
    match c s with
    | (Ok a, s') => k a s'
    | (Raise e, s') => (Raise e, s')
    end.

Definition lift {A : Type} (r : result A) : M A := fun s => (r, s).

Notation "x <- c ;; k" := (bind c (fun x => k))
  (at level 61, c at next level, right associativity).

(** [k] consecutive draws of one sampler fill an array in order. *)
Fixpoint draws (k : nat) (d : rng -> float * rng) (s : rng)
  : list float * rng :=
  match k with
  | O => ([], s)
  | S k' =>
      let (x, s1) := d s in
      let (xs, s2) := draws k' d s1 in
      (x :: xs, s2)
  end.

Definition sized (d : rng -> float * rng) (size : Z) : M (list float) :=
  fun s =>
    if (size <? 0)%Z then (Raise ValueError, s)
    else let (xs, s') := draws (Z.to_nat size) d s in (Ok xs, s').


(** [np.random.uniform(low, high, size)] *)
Definition np_random_uniform (low high : float) (size : Z) : M (list float) :=
  sized (uniform1 low high) size.

(** [np.random.exponential(scale, size)] *)
Definition np_random_exponential (scale : float) (size : Z)
  : M (list float) :=
  sized (exponential1 scale) size.

(** ** [gumbel_copula_sample] *)

(** [alpha_stable = 1.0 / theta] *)
Definition alpha_stable (theta : float) : result float :=
  py_truediv fone theta.

(** [n_sample = int(n * 1.5)] *)
Definition n_sample (n : Z) : result Z :=
  match py_float_of_int n with
  | Ok x => py_int (fmul x f1_5)
  | Raise e => Raise e
  end.

(** The stable variates: [np.tan(W1)] when [alpha_stable == 1], the
    Chambers-Mallows-Stuck product otherwise. *)
Definition stable_V (a : float) (W1 W2 : list float) : result (list float) :=
  if feqb a fone then Ok (map np_tan W1)
  else
    match py_truediv fone a with
    | Raise e => Raise e
    | Ok inv_a =>
        match py_truediv (fsub fone a) a with
        | Raise e => Raise e
        | Ok r =>
            Ok (zipWith fmul
                  (zipWith fdiv
                     (map np_sin (map (fmul a) W1))
                     (map (fun c => np_power c inv_a) (map np_cos W1)))
                  (map (fun q => np_power q r)
                     (zipWith fdiv
                        (map np_cos (zipWith fsub W1 (map (fmul a) W1)))
                        W2)))
        end
    end.

(** [np.exp(-(E / V) ** (1/theta))] *)
Definition to_uniform (theta : float) (E V : list float)
  : result (list float) :=
  match py_truediv fone theta with
  | Raise e => Raise e
  | Ok inv_theta =>
      Ok (map np_exp
            (map fneg
               (map (fun q => np_power q inv_theta) (zipWith fdiv E V))))
  end.

(** The arrays of one call, as they stand before the filter. *)
Record candidates : Type := mk_candidates {
  cW1 : list float;
  cW2 : list float;
  cV : list float;
  cE1 : list float;
  cE2 : list float;
  cU1 : list float;
  cU2 : list float
}.

(** Lines 45 to 67: the draws and the transform.  The function body is
    cut in two, here and at [select_valid], so that the candidate arrays can
    be named in the statements. *)
Definition draw_candidates (n : Z) (theta : float) : M candidates :=
  a <- lift (alpha_stable theta) ;;
  k <- lift (n_sample n) ;;
  W1 <- np_random_uniform f1e_10 (fsub fpi f1e_10) k ;;
  W2 <- np_random_exponential fone k ;;
  V <- lift (stable_V a W1 W2) ;;
  E1 <- np_random_exponential fone k ;;
  E2 <- np_random_exponential fone k ;;
  U1 <- lift (to_uniform theta E1 V) ;;
  U2 <- lift (to_uniform theta E2 V) ;;
  ret (mk_candidates W1 W2 V E1 E2 U1 U2).

(** [np.isfinite(U1) & np.isfinite(U2) & (U1 > 0) & (U1 < 1) & (U2 > 0)
    & (U2 < 1)] *)
Definition valid_mask (U1 U2 : list float) : list bool :=
  zipWith andb
    (zipWith andb
       (zipWith andb
          (zipWith andb
             (zipWith andb (map isfinite U1) (map isfinite U2))
             (map (fun u => fltb fzero u) U1))
          (map (fun u => fltb u fone) U1))
       (map (fun u => fltb fzero u) U2))
    (map (fun u => fltb u fone) U2).

(** Lines 70 to 73: the filter, the slice and the stacking. *)
Definition select_valid (n : Z) (U1 U2 : list float) : result ndarray2 :=
  let valid := valid_mask U1 U2 in
  column_stack (slice_to n (mask_select U1 valid))
               (slice_to n (mask_select U2 valid)).

Definition gumbel_copula_sample (n : Z) (theta : float) : M ndarray2 :=
  c <- draw_candidates n theta ;;
  lift (select_valid n (cU1 c) (cU2 c)).


Section SeededScript.

(** [scipy.stats.pareto.rvs(b, size=n)]: SciPy's sampler works on NumPy's
    process-wide generator; it is taken as any computation on that
    generator. *)
Variable pareto_rvs : float -> Z -> M (list float).


End SeededScript.

End Sampler.

(** The per-sample formulas of the construction, on scalars. *)
Section Formulas.

Context {rng : Type} {NP : NumPy rng}.

(** [V = sin(a W1) / cos(W1)^(1/a) * (cos(W1 - a W1) / W2)^((1-a)/a)] *)
Definition cms_variate (a w1 w2 : float) : float :=
  fmul (fdiv (np_sin (fmul a w1)) (np_power (np_cos w1) (fdiv fone a)))
       (np_power (fdiv (np_cos (fsub w1 (fmul a w1))) w2)
                 (fdiv (fsub fone a) a)).

(** The stable variate of one sample. *)
Definition stable_variate (a w1 w2 : float) : float :=
  if feqb a fone then np_tan w1 else cms_variate a w1 w2.

(** [U = exp(-(E / V)^(1/theta))] *)
Definition gumbel_uniform (theta e v : float) : float :=
  np_exp (fneg (np_power (fdiv e v) (fdiv fone theta))).

(** Both coordinates finite and strictly between 0 and 1. *)
Definition valid_pair (u1 u2 : float) : bool :=
  isfinite u1 && isfinite u2 && fltb fzero u1 && fltb u1 fone
  && fltb fzero u2 && fltb u2 fone.

(** The scalar divisions of a call are all defined: [theta] is not a
    zero and, off the [alpha_stable == 1] branch, neither is
    [alpha_stable]. *)
Definition scalars_defined (theta : float) : bool :=
  negb (is_zero theta)
  && (feqb (fdiv fone theta) fone || negb (is_zero (fdiv fone theta))).

End Formulas.


(** ** Masks and slices *)

Fixpoint count_true (m : list bool) : nat :=
  match m with
  | [] => 0
  | b :: m' => (if b then 1 else 0) + count_true m'
  end.

(** The candidate positions that survive [a[m][:n]], in the order of the
    result. *)
Definition kept_indices (n : Z) (m : list bool) : list nat :=
  slice_to n (mask_select (seq 0 (length m)) m).


(** ** Exact binary64 operations *)

(** [p * 2^k] on mantissas. *)
Definition shl_pos (p : positive) (k : Z) : positive :=
  match k with
  | Zpos a => Pos.iter xO p a
  | _ => p
  end.


(** ** Recorded runs

    A generator that replays a recorded sequence of raw draws, with the C
    library's values of [tan] and [exp] at the arguments those runs reach.
    The recorded runs use [theta = 1.0], so [np.sin] and [np.cos] are not
    reached, and [np.power] is only needed at the exponent [1.0], where it
    returns its base. *)

Module Replay.

Definition same (x y : float) : bool :=
  match x, y with
  | S754_zero a, S754_zero b => Bool.eqb a b
  | S754_infinity a, S754_infinity b => Bool.eqb a b
  | S754_nan, S754_nan => true
  | S754_finite a m e, S754_finite b m' e' =>
      Bool.eqb a b && Pos.eqb m m' && Z.eqb e e'
  | _, _ => false
  end.

Fixpoint lookup (tbl : list (float * float)) (x : float) : float :=
  match tbl with
  | [] => S754_nan
  | (k, v) :: tbl' => if same k x then v else lookup tbl' x
  end.

Definition f2_0 : float := S754_finite false 4503599627370496 (-51).
Definition f0_5 : float := S754_finite false 4503599627370496 (-53).
Definition f0_25 : float := S754_finite false 4503599627370496 (-54).

(** [tan 1.0 = 1.5574077246549023], [tan 0.5 = 0.5463024898437905],
    [tan 0.25 = 0.25534192122103627], [tan 2.0 = -2.185039863261519]. *)
Definition tan_values : list (float * float) :=
  [ (fone, S754_finite false 7013940848419750 (-52));
    (f0_5, S754_finite false 4920655379384138 (-53));
    (f0_25, S754_finite false 4599831125052502 (-54));
    (f2_0, S754_finite true 4920272356987128 (-51)) ].

(** [exp] at [-0.6420926159343306], [-0.16052315398358266],
    [-0.915243860856226], [-1.830487721712452], [-7.83263472929188],
    [-1.95815868232297] and [0.45765755436028577]. *)
Definition exp_values : list (float * float) :=
  [ (S754_finite true 5783456131718397 (-53),
     S754_finite false 4739499592029195 (-53));
    (S754_finite true 5783456131718397 (-55),
     S754_finite false 7671414519864683 (-53));
    (S754_finite true 8243783821410467 (-53),
     S754_finite false 7213306854389143 (-54));
    (S754_finite true 8243783821410467 (-52),
     S754_finite false 5776689768263998 (-55));
    (S754_finite true 8818762712042029 (-50),
     S754_finite false 7315595444472327 (-64));
    (S754_finite true 8818762712042029 (-52),
     S754_finite false 5084312676815231 (-55));
    (S754_finite false 8244425565121102 (-54),
     S754_finite false 7117343476484627 (-52)) ].

Definition pop (t : list float) : float * list float :=
  match t with
  | [] => (S754_nan, [])
  | x :: t' => (x, t')
  end.

Definition numpy (t0 : list float) : NumPy (list float) := {|
  seeded := fun _ => t0;
  uniform1 := fun _ _ => pop;
  exponential1 := fun _ => pop;
  np_sin := fun _ => S754_nan;
  np_cos := fun _ => S754_nan;
  np_tan := lookup tan_values;
  np_exp := lookup exp_values;
  np_power := fun x y => if same y fone then x else S754_nan
|}.

(** One candidate, [W1 = 2.0], [W2 = E1 = E2 = 1.0]. *)
Definition tape_one : list float := [f2_0; fone; fone; fone].

(** Three candidates: [W1 = 1.0, 0.5, 0.25], [W2 = 1.0, 1.0, 1.0],
    [E1 = 1.0, 0.5, 2.0], [E2 = 0.25, 1.0, 0.5]. *)
Definition tape_three : list float :=
  [fone; f0_5; f0_25; fone; fone; fone; fone; f0_5; f2_0; f0_25; fone; f0_5].

Definition run (t : list float) (n : Z) (theta : float)
  : result ndarray2 * list float :=
  @gumbel_copula_sample _ (numpy t) n theta t.

Definition run_candidates (t : list float) (n : Z) (theta : float)
  : result candidates * list float :=
  @draw_candidates _ (numpy t) n theta t.

(** What [np.column_stack] makes of two empty columns. *)
Definition empty_batch : ndarray2 := mk_ndarray2 (0, 2) [].

(** The arrays and the batch of the two recorded runs. *)
Definition no_candidates : candidates := mk_candidates [] [] [] [] [] [] [].

Definition one : candidates :=
  Eval vm_compute in
  match run_candidates tape_one 1 fone with
  | (Ok c, _) => c
  | _ => no_candidates
  end.

Definition three : candidates :=
  Eval vm_compute in
  match run_candidates tape_three 2 fone with
  | (Ok c, _) => c
  | _ => no_candidates
  end.

Definition batch_three : ndarray2 :=
  Eval vm_compute in
  match run tape_three 2 fone with
  | (Ok B, _) => B
  | _ => empty_batch
  end.

End Replay.

(** ** The script around the sampler

    Lines 82 to 84 and 140 of the script: the two columns of the returned
    array go through [scipy.stats.pareto.ppf], and the pairs above the
    threshold in both margins are counted. *)

(** [U[:, j]]: column [j] of a two-dimensional array.  [None] stands for the
    [IndexError] of a column index out of bounds. *)
Definition column (j : nat) (U : ndarray2) : option (list float) :=
  if Nat.ltb j (snd (shape U))
  then Some (map (fun r => nth j r fzero) (rows U))
  else None.

(** [tail_threshold = 10] is 0x1.4p+3. *)
Definition tail_threshold : float := S754_finite false 5629499534213120 (-49).

(** [np.sum((X1 > t) & (X2 > t))] *)
Definition tail_count (t : float) (X1 X2 : list float) : nat :=
  count_true (zipWith andb (map (fun x => fltb t x) X1)
                           (map (fun x => fltb t x) X2)).

Section Script.

(** [scipy.stats.pareto.ppf(q, b)] at one point; on an array it is applied
    to every element. *)
Variable pareto_ppf : float -> float -> float.

(** [X1_dep = pareto.ppf(U[:, 0], alpha)] and
    [X2_dep = pareto.ppf(U[:, 1], alpha)] *)
Definition pareto_margins (alpha : float) (U : ndarray2)
  : option (list float * list float) :=
  match column 0 U with
  | None => None
  | Some c0 =>
      match column 1 U with
      | None => None
      | Some c1 =>
          Some (map (fun q => pareto_ppf q alpha) c0,
                map (fun q => pareto_ppf q alpha) c1)
      end
  end.

End Script.

(** ** Further recorded values

    The Pareto quantile [(1 - q)^(-1/1.5)] at the four coordinates the
    three-candidate run returns, and a one-candidate run under two values
    of [theta]. *)

Module Recorded.

Definition pareto_values : list (float * float) :=
  [ (S754_finite false 4739499592029195 (-53),
     S754_finite false 7410094086415139 (-52));
    (S754_finite false 7671414519864683 (-53),
     S754_finite false 8037086483127552 (-51));
    (S754_finite false 7213306854389143 (-54),
     S754_finite false 6333753891992662 (-52));
    (S754_finite false 5776689768263998 (-55),
     S754_finite false 5060062268797667 (-52)) ].

Definition ppf (q b : float) : float :=
  if Replay.same b f1_5 then Replay.lookup pareto_values q else S754_nan.

(** One candidate, [W1 = W2 = E1 = 1.0] and [E2 = 0.25], run with
    [theta = 1.0] and with [theta = 2.0]; the second run goes through
    [sin 0.5 = 0.479425538604203], [cos 1.0 = 0.5403023058681398],
    [cos 0.5 = 0.8775825618903728], [0.5403023058681398^2.0],
    [0.6938482419404496^0.5], [0.1734620604851124^0.5], and [exp] at
    [-0.8329755350191562] and [-0.4164877675095781]. *)
Definition sin_values : list (float * float) :=
  [ (Replay.f0_5, S754_finite false 8636562708039152 (-54)) ].

Definition cos_values : list (float * float) :=
  [ (fone, S754_finite false 4866610526750348 (-53));
    (Replay.f0_5, S754_finite false 7904560997432656 (-53)) ].

Definition square_values : list (float * float) :=
  [ (S754_finite false 4866610526750348 (-53),
     S754_finite false 5258881778730751 (-54)) ].

Definition root_values : list (float * float) :=
  [ (S754_finite false 6249629367709365 (-53),
     S754_finite false 7502776618242023 (-53));
    (S754_finite false 6249629367709365 (-55),
     S754_finite false 7502776618242023 (-54)) ].

Definition exp_values : list (float * float) :=
  [ (S754_finite true 7502776618242023 (-53),
     S754_finite false 7831827032808687 (-54));
    (S754_finite true 7502776618242023 (-54),
     S754_finite false 5938974095463574 (-53)) ] ++ Replay.exp_values.

Definition power (x y : float) : float :=
  if Replay.same y fone then x
  else if Replay.same y Replay.f2_0 then Replay.lookup square_values x
  else if Replay.same y Replay.f0_5 then Replay.lookup root_values x
  else S754_nan.

Definition numpy (t0 : list float) : NumPy (list float) := {|
  seeded := fun _ => t0;
  uniform1 := fun _ _ => Replay.pop;
  exponential1 := fun _ => Replay.pop;
  np_sin := Replay.lookup sin_values;
  np_cos := Replay.lookup cos_values;
  np_tan := Replay.lookup Replay.tan_values;
  np_exp := Replay.lookup exp_values;
  np_power := power
|}.

Definition tape_pair : list float := [fone; fone; fone; Replay.f0_25].

Definition pair_at_one : candidates :=
  Eval vm_compute in
  match @draw_candidates _ (numpy tape_pair) 1 fone tape_pair with
  | (Ok c, _) => c
  | _ => Replay.no_candidates
  end.

Definition pair_at_two : candidates :=
  Eval vm_compute in
  match @draw_candidates _ (numpy tape_pair) 1 Replay.f2_0 tape_pair with
  | (Ok c, _) => c
  | _ => Replay.no_candidates
  end.



End Recorded.

(** * Properties *)

(** ** Binary64: conversions and products that are exact *)

Example of_Z_500 : of_Z 500 = S754_finite false 8796093022208000 (-44).
Proof. vm_compute. reflexivity. Qed.
Example pi_minus : fsub fpi f1e_10 = S754_finite false 7074237751803260 (-51).
Proof. vm_compute. reflexivity. Qed.
Example trunc_750 : trunc (fmul (of_Z 500) f1_5) = 750%Z.
Proof. vm_compute. reflexivity. Qed.
Example trunc_m1 : trunc (fmul (of_Z (-1)) f1_5) = (-1)%Z.
Proof. vm_compute. reflexivity. Qed.


Section Binary64Facts.

Local Open Scope Z_scope.

Lemma iter_xO_Z p a : Zpos (Pos.iter xO p a) = (Zpos p * 2 ^ Zpos a)%Z.
Proof.
  induction a as [|a IH] using Pos.peano_ind.
  - simpl. lia.
  - rewrite Pos.iter_succ, Pos2Z.inj_xO, IH, Pos2Z.inj_succ, Z.pow_succ_r; lia.
Qed.

Lemma shl_pos_Z p k : (0 <= k)%Z -> Zpos (shl_pos p k) = (Zpos p * 2 ^ k)%Z.
Proof.
  destruct k; simpl; intros H; try lia.
  apply iter_xO_Z.
Qed.

Lemma digits2_iter_xO p a :
  Zpos (digits2_pos (Pos.iter xO p a)) = (Zpos (digits2_pos p) + Zpos a)%Z.
Proof.
  induction a as [|a IH] using Pos.peano_ind.
  - simpl. lia.
  - rewrite Pos.iter_succ; simpl digits2_pos.
    rewrite Pos2Z.inj_succ, IH; lia.
Qed.

Lemma digits2_shl_pos p k :
  (0 <= k)%Z ->
  Zpos (digits2_pos (shl_pos p k)) = (Zpos (digits2_pos p) + k)%Z.
Proof.
  destruct k; simpl; intros H; try lia.
  apply digits2_iter_xO.
Qed.

Lemma pow2_step q : (0 <= q)%Z -> (2 ^ (q + 1) = 2 * 2 ^ q)%Z.
Proof. intros H; rewrite Z.pow_add_r by lia; lia. Qed.

Lemma digits2_pos_bounds p :
  (2 ^ (Zpos (digits2_pos p) - 1) <= Zpos p < 2 ^ Zpos (digits2_pos p))%Z.
Proof.
  induction p as [p IH|p IH|]; simpl digits2_pos; [| |simpl; lia].
  all: rewrite Pos2Z.inj_succ.
  all: remember (Zpos (digits2_pos p) - 1)%Z as q eqn:Hq.
  all: assert (Hq0 : (0 <= q)%Z) by lia.
  all: replace (Zpos (digits2_pos p)) with (q + 1)%Z in * by lia.
  all: replace (Z.succ (q + 1) - 1)%Z with (q + 1)%Z by lia.
  all: replace (Z.succ (q + 1)) with (q + 1 + 1)%Z by lia.
  all: rewrite (pow2_step (q + 1)) by lia.
  all: rewrite (pow2_step q) in * by lia; lia.
Qed.

Lemma iter_pos_iter {A : Type} (f : A -> A) n : forall x,
  iter_pos f n x = Pos.iter f x n.
Proof.
  induction n as [n IH|n IH|]; intros x; simpl.
  - rewrite !IH, <- Pos.iter_swap, <- Pos.iter_swap. reflexivity.
  - rewrite !IH; reflexivity.
  - reflexivity.
Qed.

Lemma shr_1_iter_xO a : forall p,
  Pos.iter shr_1 (Build_shr_record (Zpos (Pos.iter xO p a)) false false) a
  = Build_shr_record (Zpos p) false false.
Proof.
  induction a as [|a IH] using Pos.peano_ind; intros p.
  - reflexivity.
  - rewrite Pos.iter_succ_r. 
    rewrite Pos.iter_succ. simpl shr_1. apply IH.
Qed.

Lemma binary_round_aux_exact s m0 t e :
  Zpos (digits2_pos m0) = 53%Z -> (0 <= t)%Z ->
  (-1074 <= e + t <= 971)%Z ->
  binary_round_aux prec emax s (Zpos (shl_pos m0 t)) e loc_Exact
  = S754_finite s m0 (e + t).
Proof.
  intros Hd Ht He.
  unfold binary_round_aux, shr_fexp.
  assert (Hs : (fexp prec emax (Zdigits2 (Zpos (shl_pos m0 t)) + e) - e
                = t)%Z).
  { simpl Zdigits2; rewrite digits2_shl_pos by lia.
    unfold fexp, emin, prec, emax; lia. }
  rewrite Hs.
  assert (Hshr : shr (shr_record_of_loc (Zpos (shl_pos m0 t)) loc_Exact) e t
                 = (Build_shr_record (Zpos m0) false false, (e + t)%Z)).
  { destruct t as [|a|a]; simpl; try lia.
    - rewrite Z.add_0_r; reflexivity.
    - rewrite iter_pos_iter, shr_1_iter_xO; reflexivity. }
  rewrite Hshr; simpl shr_m; simpl loc_of_shr_record;
    simpl round_nearest_even.
  assert (Hs2 : (fexp prec emax (Zdigits2 (Zpos m0) + (e + t)) - (e + t)
                 = 0)%Z).
  { simpl Zdigits2; unfold fexp, emin, prec, emax; lia. }
  rewrite Hs2; simpl.
  destruct (Z.leb_spec (e + t) 971); [reflexivity | lia].
Qed.

(** Conversion of an integer below 2^53 is exact. *)
Lemma binary_round_small s p :
  (Zpos (digits2_pos p) <= 53)%Z ->
  binary_round prec emax s p 0
  = S754_finite s (shl_pos p (53 - Zpos (digits2_pos p)))
                  (Zpos (digits2_pos p) - 53).
Proof.
  intros Hd; unfold binary_round, shl_align.
  assert (Hf : fexp prec emax (Zpos (digits2_pos p) + 0)
               = (Zpos (digits2_pos p) - 53)%Z)
    by (unfold fexp, emin, prec, emax; lia).
  rewrite Hf.
  destruct (Zpos (digits2_pos p) - 53 - 0)%Z as [|a|a] eqn:E; try lia.
  - replace (53 - Zpos (digits2_pos p))%Z with 0%Z by lia.
    rewrite (binary_round_aux_exact s p 0) by lia.
    f_equal; lia.
  - replace (53 - Zpos (digits2_pos p))%Z with (Zpos a) by lia.
    assert (Hd' : Zpos (digits2_pos (shl_pos p (Zpos a))) = 53%Z)
      by (rewrite digits2_shl_pos; lia).
    etransitivity;
      [apply (binary_round_aux_exact s (shl_pos p (Zpos a)) 0); lia|].
    f_equal; lia.
Qed.

Lemma digits2_pos_le p k :
  (0 <= k)%Z -> (Zpos p < 2 ^ k)%Z -> (Zpos (digits2_pos p) <= k)%Z.
Proof.
  intros Hk Hp.
  destruct (Z.le_gt_cases (Zpos (digits2_pos p)) k) as [|Hgt]; [assumption|].
  pose proof (digits2_pos_bounds p) as [Hlo _].
  assert (2 ^ k <= 2 ^ (Zpos (digits2_pos p) - 1))%Z
    by (apply Z.pow_le_mono_r; lia).
  lia.
Qed.

(** The product of an integer below 2^51 by [1.5] is exact. *)
Lemma fmul_1_5_small s p :
  (Zpos p < 2 ^ 51)%Z ->
  fmul (S754_finite s (shl_pos p (53 - Zpos (digits2_pos p)))
                      (Zpos (digits2_pos p) - 53)) f1_5
  = S754_finite s
      (shl_pos (3 * p) (53 - Zpos (digits2_pos (3 * p))))
      (Zpos (digits2_pos (3 * p)) - 54).
Proof.
  intros Hp.
  assert (Hd : (Zpos (digits2_pos p) <= 51)%Z)
    by (apply digits2_pos_le; lia).
  assert (Hd3 : (Zpos (digits2_pos (3 * p)) <= 53)%Z).
  { apply digits2_pos_le; [lia|].
    rewrite Pos2Z.inj_mul.
    change (2 ^ 53)%Z with (4 * 2 ^ 51)%Z; lia. }
  set (d := Zpos (digits2_pos p)) in *.
  set (d3 := Zpos (digits2_pos (3 * p))) in *.
  assert (Hd0 : (0 < d)%Z) by (unfold d; lia).
  assert (Hd30 : (0 < d3)%Z) by (unfold d3; lia).
  unfold fmul, f1_5, SFmul.
  rewrite xorb_false_r.
  assert (Hm : (shl_pos p (53 - d) * 6755399441055744)%positive
               = shl_pos (shl_pos (3 * p) (53 - d3)) (51 - d + d3)).
  { apply Pos2Z.inj.
    rewrite Pos2Z.inj_mul, !shl_pos_Z, Pos2Z.inj_mul by lia.
    change (Zpos 6755399441055744) with (3 * 2 ^ 51)%Z.
    change (Zpos 3) with 3%Z.
    transitivity (3 * Zpos p * 2 ^ (104 - d))%Z.
    - replace (104 - d)%Z with ((53 - d) + 51)%Z by lia.
      rewrite Z.pow_add_r by lia; ring.
    - replace (104 - d)%Z with ((53 - d3) + (51 - d + d3))%Z by lia.
      rewrite Z.pow_add_r by lia; ring. }
  rewrite Hm, binary_round_aux_exact.
  - f_equal; lia.
  - rewrite digits2_shl_pos by lia; fold d3; lia.
  - lia.
  - lia.
Qed.

Lemma trunc_half s q :
  (Zpos (digits2_pos q) <= 53)%Z ->
  trunc (S754_finite s (shl_pos q (53 - Zpos (digits2_pos q)))
                       (Zpos (digits2_pos q) - 54))
  = if s then (- (Zpos q / 2))%Z else (Zpos q / 2)%Z.
Proof.
  intros Hd; unfold trunc.
  set (d := Zpos (digits2_pos q)) in *.
  assert (Hd0 : (0 < d)%Z) by (unfold d; lia).
  destruct (d - 54)%Z as [|k|k] eqn:E; try lia.
  rewrite Z.shiftr_div_pow2, shl_pos_Z by lia.
  replace (Zpos k) with (53 - d + 1)%Z by lia.
  rewrite pow2_step by lia.
  rewrite Z.div_mul_cancel_r; [reflexivity | lia |].
  apply Z.pow_nonzero; lia.
Qed.

(** [int(n * 1.5)] is the exact [3 n / 2] rounded toward zero as long as
    [|n| < 2^51]. *)
Lemma n_sample_small n :
  (Z.abs n < 2 ^ 51)%Z -> n_sample n = Ok (Z.quot (3 * n) 2).
Proof.
  intros Hn; unfold n_sample, py_float_of_int, of_Z, binary_normalize.
  destruct n as [|p|p].
  - reflexivity.
  - assert (Hd : (Zpos (digits2_pos p) <= 53)%Z)
      by (apply digits2_pos_le; lia).
    rewrite binary_round_small by assumption; simpl is_inf; cbv iota.
    rewrite fmul_1_5_small by lia.
    unfold py_int; simpl is_nan; simpl is_inf; cbv iota.
    rewrite trunc_half.
    + rewrite Z.quot_div_nonneg by lia. reflexivity.
    + apply digits2_pos_le; [lia|].
      rewrite Pos2Z.inj_mul; change (2 ^ 53)%Z with (4 * 2 ^ 51)%Z; lia.
  - assert (Hd : (Zpos (digits2_pos p) <= 53)%Z)
      by (apply digits2_pos_le; lia).
    rewrite binary_round_small by assumption; simpl is_inf; cbv iota.
    rewrite fmul_1_5_small by lia.
    unfold py_int; simpl is_nan; simpl is_inf; cbv iota.
    rewrite trunc_half.
    + change (3 * Zneg p)%Z with (- (Zpos (3 * p)))%Z.
      rewrite Z.quot_opp_l, Z.quot_div_nonneg by lia. reflexivity.
    + apply digits2_pos_le; [lia|].
      rewrite Pos2Z.inj_mul; change (2 ^ 53)%Z with (4 * 2 ^ 51)%Z; lia.
Qed.

Lemma shr_1_m r : 0 <= shr_m r -> shr_m (shr_1 r) = shr_m r / 2.
Proof.
  destruct r as [m b c]; simpl; intros Hm.
  destruct m as [|[p|p|]|p]; simpl; try lia; try reflexivity.
  - apply (Z.div_unique _ 2 _ 1); lia.
  - apply (Z.div_unique _ 2 _ 0); lia.
Qed.

Lemma shr_iter_m a : forall r,
  0 <= shr_m r -> shr_m (Pos.iter shr_1 r a) = shr_m r / 2 ^ Zpos a.
Proof.
  induction a as [|a IH] using Pos.peano_ind; intros r Hr.
  - simpl Pos.iter. rewrite shr_1_m by assumption. reflexivity.
  - rewrite Pos.iter_succ, shr_1_m, IH, Pos2Z.inj_succ, Z.pow_succ_r by
      (try rewrite IH by assumption; try apply Z.div_pos; lia).
    rewrite Z.div_div by lia. f_equal; lia.
Qed.

Lemma Zdigits2_bounds m :
  0 < m -> 2 ^ (Zdigits2 m - 1) <= m < 2 ^ Zdigits2 m.
Proof. destruct m; try lia; intros _; apply digits2_pos_bounds. Qed.

(** Rounding to the format keeps a positive mantissa positive. *)
Lemma shr_fexp_pos m e l :
  0 < m -> -1074 <= e ->
  0 < shr_m (fst (shr_fexp prec emax m e l)) /\
  -1074 <= snd (shr_fexp prec emax m e l).
Proof.
  intros Hm He; unfold shr_fexp, shr.
  pose proof (Zdigits2_bounds m Hm) as [Hlo _].
  assert (Hm0 : shr_m (shr_record_of_loc m l) = m)
    by (destruct l as [|[]]; reflexivity).
  destruct (fexp prec emax (Zdigits2 m + e) - e) as [|a|a] eqn:E; simpl;
    rewrite ?Hm0; try lia.
  unfold fexp, emin, prec, emax in E.
  rewrite iter_pos_iter, shr_iter_m, Hm0 by lia.
  split; [|lia].
  assert (Ha : Zpos a = Zdigits2 m - 53) by lia.
  apply Z.div_str_pos; split; [apply Z.pow_pos_nonneg; lia|].
  etransitivity; [|exact Hlo].
  apply Z.pow_le_mono_r; lia.
Qed.

Lemma round_nearest_even_ge m l : m <= round_nearest_even m l.
Proof. destruct l as [|[]]; simpl; try lia. destruct (Z.even m); lia. Qed.

Lemma binary_round_aux_nonzero s m e l :
  0 < m -> -1074 <= e ->
  is_zero (binary_round_aux prec emax s m e l) = false.
Proof.
  intros Hm He; unfold binary_round_aux.
  pose proof (shr_fexp_pos m e l Hm He) as [H1 H2].
  destruct (shr_fexp prec emax m e l) as [r1 e1]; simpl in H1, H2.
  pose proof (round_nearest_even_ge (shr_m r1) (loc_of_shr_record r1)) as Hr.
  set (m2 := round_nearest_even (shr_m r1) (loc_of_shr_record r1)) in *.
  assert (Hm2 : 0 < m2) by lia.
  pose proof (shr_fexp_pos m2 e1 loc_Exact Hm2 H2) as [H3 _].
  destruct (shr_fexp prec emax m2 e1 loc_Exact) as [r2 e2]; simpl in H3.
  destruct (shr_m r2); try lia.
  destruct (e2 <=? emax - prec); reflexivity.
Qed.

(** [1.0 / theta] is not a zero when [theta] is a finite number of the
    format. *)
Lemma inverse_nonzero s m e :
  bounded prec emax m e = true ->
  is_zero (fdiv fone (S754_finite s m e)) = false.
Proof.
  unfold bounded, canonical_mantissa; rewrite andb_true_iff.
  rewrite Z.eqb_eq, Z.leb_le; intros [Hc He].
  unfold fexp, emin, prec, emax in Hc, He.
  pose proof (digits2_pos_bounds m) as [_ Hhi].
  set (d := Zpos (digits2_pos m)) in *.
  assert (Hd0 : 0 < d) by (unfold d; lia).
  unfold fdiv, fone, SFdiv, SFdiv_core_binary.
  change (Zdigits2 (Zpos 4503599627370496)) with 53.
  change (Zdigits2 (Zpos m)) with d.
  set (e' := Z.min (fexp prec emax (53 + -52 - (d + e))) (-52 - e)).
  assert (He' : -1074 <= e' /\ d <= 52 + (-52 - e - e')).
  { unfold e', fexp, emin, prec, emax; lia. }
  set (sh := -52 - e - e') in *.
  set (m' := match sh with
             | Z0 => Zpos 4503599627370496
             | Zpos _ => Z.shiftl (Zpos 4503599627370496) sh
             | Zneg _ => 0
             end).
  assert (Hm' : m' = 2 ^ (52 + sh)).
  { unfold m'; destruct sh as [|a|a] eqn:Esh.
    - reflexivity.
    - rewrite Z.shiftl_mul_pow2, Z.pow_add_r by lia; reflexivity.
    - lia. }
  pose proof (Z_div_mod m' (Zpos m) eq_refl) as Hdm.
  assert (Hq : 0 < m' / Zpos m).
  { apply Z.div_str_pos; split; [lia|].
    rewrite Hm'. etransitivity; [apply Z.lt_le_incl, Hhi|].
    apply Z.pow_le_mono_r; lia. }
  unfold Z.div in Hq.
  destruct (Z.div_eucl m' (Zpos m)) as [q r]; simpl in Hq.
  apply binary_round_aux_nonzero; lia.
Qed.

Lemma scalars_defined_finite theta :
  is_binary64 theta = true -> isfinite theta = true ->
  is_zero theta = false -> scalars_defined theta = true.
Proof.
  destruct theta as [b|b| |s m e]; simpl; try discriminate.
  intros Hv _ _; unfold scalars_defined.
  rewrite (inverse_nonzero s m e Hv), orb_true_r; reflexivity.
Qed.

Lemma shr_fexp_exponent m e l :
  e <= snd (shr_fexp prec emax m e l).
Proof.
  unfold shr_fexp, shr.
  destruct (fexp prec emax (Zdigits2 m + e) - e) as [|a|a]; simpl; lia.
Qed.

Lemma shr_fexp_large m e l :
  0 < m -> 972 <= fexp prec emax (Zdigits2 m + e) ->
  972 <= snd (shr_fexp prec emax m e l).
Proof.
  intros Hm Hf; unfold shr_fexp, shr.
  destruct (fexp prec emax (Zdigits2 m + e) - e) as [|a|a] eqn:E; simpl; lia.
Qed.

(** An integer of 1025 bits or more converts to an infinity. *)
Lemma binary_round_overflow s p :
  2 ^ 1024 <= Zpos p -> binary_round prec emax s p 0 = S754_infinity s.
Proof.
  intros Hp.
  pose proof (digits2_pos_bounds p) as [_ Hhi].
  assert (Hd : 1024 < Zpos (digits2_pos p)).
  { destruct (Z.le_gt_cases (Zpos (digits2_pos p)) 1024) as [Hle|]; [|lia].
    assert (2 ^ Zpos (digits2_pos p) <= 2 ^ 1024)
      by (apply Z.pow_le_mono_r; lia).
    lia. }
  unfold binary_round, shl_align.
  assert (Hf : fexp prec emax (Zpos (digits2_pos p) + 0)
               = Zpos (digits2_pos p) - 53)
    by (unfold fexp, emin, prec, emax; lia).
  rewrite Hf.
  destruct (Zpos (digits2_pos p) - 53 - 0) as [|a|a] eqn:E; try lia.
  unfold binary_round_aux.
  assert (Hpos : 0 < shr_m (fst (shr_fexp prec emax (Zpos p) 0 loc_Exact)))
    by (apply shr_fexp_pos; lia).
  assert (He1 : 972 <= snd (shr_fexp prec emax (Zpos p) 0 loc_Exact)).
  { apply shr_fexp_large; [lia|].
    change (Zdigits2 (Zpos p)) with (Zpos (digits2_pos p)); lia. }
  destruct (shr_fexp prec emax (Zpos p) 0 loc_Exact) as [r1 e1].
  simpl in Hpos, He1.
  pose proof (round_nearest_even_ge (shr_m r1) (loc_of_shr_record r1)) as Hr.
  set (m2 := round_nearest_even (shr_m r1) (loc_of_shr_record r1)) in *.
  assert (H2 : 0 < shr_m (fst (shr_fexp prec emax m2 e1 loc_Exact)))
    by (apply shr_fexp_pos; lia).
  pose proof (shr_fexp_exponent m2 e1 loc_Exact) as He2.
  destruct (shr_fexp prec emax m2 e1 loc_Exact) as [r2 e2].
  simpl in H2, He2.
  destruct (shr_m r2); try lia.
  destruct (Z.leb_spec e2 (emax - prec)); [unfold emax, prec in *; lia|].
  reflexivity.
Qed.

Lemma n_sample_overflow n :
  2 ^ 1024 <= Z.abs n -> n_sample n = Raise OverflowError.
Proof.
  intros Hn; unfold n_sample, py_float_of_int, of_Z, binary_normalize.
  destruct n as [|p|p]; simpl Z.abs in Hn.
  - assert (0 < 2 ^ 1024) by (apply Z.pow_pos_nonneg; lia). lia.
  - rewrite binary_round_overflow by lia; reflexivity.
  - rewrite binary_round_overflow by lia; reflexivity.
Qed.

End Binary64Facts.

(** ** Arrays: lengths, elements, masks and slices *)

Section Arrays.

Context {A B C : Type}.

Lemma zipWith_length (f : A -> B -> C) a b :
  length (zipWith f a b) = Nat.min (length a) (length b).
Proof.
  revert b; induction a as [|x a IH]; intros [|y b]; simpl; auto.
Qed.

Lemma zipWith_nth_error (f : A -> B -> C) a b i :
  nth_error (zipWith f a b) i =
  match nth_error a i, nth_error b i with
  | Some x, Some y => Some (f x y)
  | _, _ => None
  end.
Proof.
  revert b i; induction a as [|x a IH]; intros [|y b] [|i]; simpl; auto.
  - destruct (nth_error a i); reflexivity.
Qed.

Lemma zipWith_firstn (f : A -> B -> C) k a b :
  firstn k (zipWith f a b) = zipWith f (firstn k a) (firstn k b).
Proof.
  revert a b; induction k as [|k IH]; intros [|x a] [|y b]; simpl; auto.
  f_equal; apply IH.
Qed.

Lemma zipWith_map_same (f : A -> B -> C) (g : nat -> A) (h : nat -> B) l :
  zipWith f (map g l) (map h l) = map (fun i => f (g i) (h i)) l.
Proof. induction l; simpl; congruence. Qed.

Lemma mask_select_length (a : list A) m :
  length a = length m -> length (mask_select a m) = count_true m.
Proof.
  revert m; induction a as [|x a IH]; intros [|[] m] H; simpl in *;
    try discriminate; auto.
Qed.

Lemma slice_to_nonneg n (a : list A) :
  (0 <= n)%Z -> slice_to n a = firstn (Z.to_nat n) a.
Proof.
  intros H; unfold slice_to.
  destruct (Z.ltb_spec n 0); [lia | reflexivity].
Qed.

End Arrays.

Lemma mask_select_map {A B : Type} (f : A -> B) a m :
  mask_select (map f a) m = map f (mask_select a m).
Proof.
  revert m; induction a as [|x a IH]; intros [|[] m]; simpl; auto.
  f_equal; apply IH.
Qed.

Lemma slice_to_map {A B : Type} (f : A -> B) n a :
  slice_to n (map f a) = map f (slice_to n a).
Proof.
  unfold slice_to; rewrite length_map.
  destruct (n <? 0)%Z; apply firstn_map.
Qed.

(** Selecting under a mask is reading the array at the selected
    positions. *)
Lemma mask_select_positions {A : Type} (d : A) a m :
  length a = length m ->
  mask_select a m =
  map (fun i => nth i a d) (mask_select (seq 0 (length m)) m).
Proof.
  revert m; induction a as [|x a IH]; intros [|b m] H; simpl in *;
    try discriminate; auto.
  injection H as H.
  rewrite <- seq_shift, mask_select_map.
  destruct b; simpl; rewrite map_map, (IH m H); reflexivity.
Qed.

Lemma slice_mask_positions {A : Type} (d : A) n a m :
  length a = length m ->
  slice_to n (mask_select a m) = map (fun i => nth i a d) (kept_indices n m).
Proof.
  intros H; unfold kept_indices.
  rewrite (mask_select_positions d a m H); apply slice_to_map.
Qed.

(** *** The surviving positions *)

Lemma kept_indices_length n m :
  (0 <= n)%Z ->
  length (kept_indices n m) = Nat.min (Z.to_nat n) (count_true m).
Proof.
  intros Hn; unfold kept_indices.
  rewrite slice_to_nonneg, length_firstn, mask_select_length; auto.
  apply length_seq.
Qed.

Lemma true_positions_firstn m : forall start j i,
  In i (firstn j (mask_select (seq start (length m)) m)) <->
  start <= i < start + length m /\
  nth (i - start) m false = true /\
  count_true (firstn (i - start) m) < j.
Proof.
  induction m as [|b m IH]; intros start j i; simpl.
  - rewrite firstn_nil; simpl; split; [tauto | lia].
  - assert (Hshift : forall k, start < k ->
              k - start = S (k - S start)) by (intros; lia).
    destruct b; [destruct j as [|j]|]; simpl.
    + split; [tauto | lia].
    + rewrite IH; split.
      * intros [<- | (Hr & Hv & Hc)].
        -- rewrite Nat.sub_diag; simpl; repeat split; lia.
        -- rewrite (Hshift i) by lia; simpl; repeat split; (lia || assumption).
      * intros (Hr & Hv & Hc).
        destruct (Nat.eq_dec start i) as [->|Hne]; [now left | right].
        rewrite (Hshift i) in Hv, Hc by lia; simpl in Hv, Hc.
        repeat split; (lia || assumption).
    + rewrite IH; split.
      * intros (Hr & Hv & Hc).
        rewrite (Hshift i) by lia; simpl; repeat split; (lia || assumption).
      * intros (Hr & Hv & Hc).
        destruct (Nat.eq_dec start i) as [->|Hne].
        -- rewrite Nat.sub_diag in Hv; discriminate.
        -- rewrite (Hshift i) in Hv, Hc by lia; simpl in Hv, Hc.
           repeat split; (lia || assumption).
Qed.

(** A position survives exactly when its mask entry is set and fewer than
    [n] set entries come before it. *)
Lemma kept_indices_spec n m i :
  (0 <= n)%Z ->
  In i (kept_indices n m) <->
  i < length m /\ nth i m false = true /\
  count_true (firstn i m) < Z.to_nat n.
Proof.
  intros Hn; unfold kept_indices; rewrite slice_to_nonneg by assumption.
  rewrite true_positions_firstn, Nat.sub_0_r; simpl; intuition lia.
Qed.

Lemma kept_indices_valid n m i :
  In i (kept_indices n m) -> i < length m /\ nth i m false = true.
Proof.
  unfold kept_indices, slice_to.
  destruct (n <? 0)%Z; intros H; apply true_positions_firstn in H;
    rewrite Nat.sub_0_r in H; simpl in H; intuition lia.
Qed.

Lemma mask_select_seq_bounds m : forall start i,
  In i (mask_select (seq start (length m)) m) -> start <= i.
Proof.
  induction m as [|b m IH]; intros start i; simpl; [tauto|].
  destruct b; simpl; [intros [<-|H]|intros H]; try lia;
    apply IH in H; lia.
Qed.

Lemma mask_select_seq_sorted m : forall start,
  StronglySorted lt (mask_select (seq start (length m)) m).
Proof.
  induction m as [|b m IH]; intros start; simpl; [constructor|].
  destruct b; [constructor|]; auto.
  apply Forall_forall; intros i Hi.
  apply mask_select_seq_bounds in Hi; lia.
Qed.

Lemma firstn_sorted (l : list nat) : forall k,
  StronglySorted lt l -> StronglySorted lt (firstn k l).
Proof.
  induction l as [|x l IH]; intros [|k] H; simpl; try constructor.
  - apply IH; now inversion H.
  - inversion H as [|? ? _ Hall]; subst.
    apply Forall_forall; intros y Hy.
    rewrite Forall_forall in Hall; apply Hall.
    rewrite <- (firstn_skipn k l); apply in_or_app; now left.
Qed.

(** The surviving positions are listed in increasing order. *)
Lemma kept_indices_sorted n m : StronglySorted lt (kept_indices n m).
Proof.
  unfold kept_indices, slice_to.
  destruct (n <? 0)%Z; apply firstn_sorted, mask_select_seq_sorted.
Qed.

(** ** Runs of the sampler *)

Section SamplerFacts.

Context {rng : Type} {NP : NumPy rng}.

Lemma draws_length (d : rng -> float * rng) : forall k s,
  length (fst (draws k d s)) = k.
Proof.
  induction k as [|k IH]; intros s; simpl; auto.
  destruct (d s) as [x s1]; specialize (IH s1).
  destruct (draws k d s1); simpl in *; congruence.
Qed.

Lemma draws_result_length (d : rng -> float * rng) k s xs s' :
  draws k d s = (xs, s') -> length xs = k.
Proof. intros H; rewrite <- (draws_length d k s), H; reflexivity. Qed.

Lemma sized_ok_inv (d : rng -> float * rng) size s xs s' :
  sized d size s = (Ok xs, s') ->
  (0 <= size)%Z /\ draws (Z.to_nat size) d s = (xs, s') /\
  length xs = Z.to_nat size.
Proof.
  unfold sized; destruct (Z.ltb_spec size 0); [discriminate|].
  pose proof (draws_length d (Z.to_nat size) s) as Hlen.
  destruct (draws (Z.to_nat size) d s) as [ys s2]; simpl in Hlen.
  intros [= <- <-]; auto.
Qed.

Lemma sized_ok (d : rng -> float * rng) size s :
  (0 <= size)%Z ->
  sized d size s =
  (Ok (fst (draws (Z.to_nat size) d s)), snd (draws (Z.to_nat size) d s)).
Proof.
  intros H; unfold sized; destruct (Z.ltb_spec size 0); [lia|].
  destruct (draws (Z.to_nat size) d s); reflexivity.
Qed.

Lemma sized_negative (d : rng -> float * rng) size s :
  (size < 0)%Z -> sized d size s = (Raise ValueError, s).
Proof.
  intros H; unfold sized; destruct (Z.ltb_spec size 0); [reflexivity|lia].
Qed.

Lemma bind_ok_inv {A B : Type} (c : @M rng A) (k : A -> @M rng B) s b s' :
  bind c k s = (Ok b, s') ->
  exists a s1, c s = (Ok a, s1) /\ k a s1 = (Ok b, s').
Proof.
  unfold bind; destruct (c s) as [[a|e] s1]; [eauto | discriminate].
Qed.

Lemma bind_ok {A B : Type} (c : @M rng A) (k : A -> @M rng B) s a s1 :
  c s = (Ok a, s1) -> bind c k s = k a s1.
Proof. unfold bind; intros ->; reflexivity. Qed.

Lemma lift_ok_inv {A : Type} (r : result A) (s : rng) a s' :
  lift r s = (Ok a, s') -> r = Ok a /\ s' = s.
Proof. unfold lift; intros [= -> ->]; auto. Qed.

Lemma stable_V_length a W1 W2 V :
  length W1 = length W2 -> stable_V a W1 W2 = Ok V -> length V = length W1.
Proof.
  unfold stable_V; intros Hlen.
  destruct (feqb a fone); [intros [= <-]; apply length_map|].
  destruct (py_truediv fone a); [|discriminate].
  destruct (py_truediv (fsub fone a) a); [|discriminate].
  intros [= <-].
  repeat (rewrite ?zipWith_length, ?length_map); lia.
Qed.

Lemma to_uniform_length theta E V U :
  to_uniform theta E V = Ok U ->
  length U = Nat.min (length E) (length V).
Proof.
  unfold to_uniform; destruct (py_truediv fone theta); [|discriminate].
  intros [= <-]; now rewrite !length_map, zipWith_length.
Qed.

(** What a successful run of lines 45 to 67 went through. *)
Lemma draw_candidates_inv n theta s c s' :
  draw_candidates n theta s = (Ok c, s') ->
  exists a k s1 s2 s3,
    alpha_stable theta = Ok a /\
    n_sample n = Ok k /\ (0 <= k)%Z /\
    draws (Z.to_nat k) (uniform1 f1e_10 (fsub fpi f1e_10)) s = (cW1 c, s1) /\
    draws (Z.to_nat k) (exponential1 fone) s1 = (cW2 c, s2) /\
    stable_V a (cW1 c) (cW2 c) = Ok (cV c) /\
    draws (Z.to_nat k) (exponential1 fone) s2 = (cE1 c, s3) /\
    draws (Z.to_nat k) (exponential1 fone) s3 = (cE2 c, s') /\
    to_uniform theta (cE1 c) (cV c) = Ok (cU1 c) /\
    to_uniform theta (cE2 c) (cV c) = Ok (cU2 c).
Proof.
  unfold draw_candidates; intros H.
  apply bind_ok_inv in H as (a & t0 & Ha & H).
  apply lift_ok_inv in Ha as [Ha ->].
  apply bind_ok_inv in H as (k & t1 & Hk & H).
  apply lift_ok_inv in Hk as [Hk ->].
  apply bind_ok_inv in H as (W1 & s1 & HW1 & H).
  apply sized_ok_inv in HW1 as (Hk0 & HW1 & _).
  apply bind_ok_inv in H as (W2 & s2 & HW2 & H).
  apply sized_ok_inv in HW2 as (_ & HW2 & _).
  apply bind_ok_inv in H as (V & t2 & HV & H).
  apply lift_ok_inv in HV as [HV ->].
  apply bind_ok_inv in H as (E1 & s3 & HE1 & H).
  apply sized_ok_inv in HE1 as (_ & HE1 & _).
  apply bind_ok_inv in H as (E2 & s4 & HE2 & H).
  apply sized_ok_inv in HE2 as (_ & HE2 & _).
  apply bind_ok_inv in H as (U1 & t3 & HU1 & H).
  apply lift_ok_inv in HU1 as [HU1 ->].
  apply bind_ok_inv in H as (U2 & t4 & HU2 & H).
  apply lift_ok_inv in HU2 as [HU2 ->].
  unfold ret in H; injection H as <- <-; simpl.
  exists a, k, s1, s2, s3; repeat split; assumption.
Qed.

(** Every array of a run has the length of the oversampled draw. *)
Lemma draw_candidates_lengths n theta s c s' :
  draw_candidates n theta s = (Ok c, s') ->
  exists k, n_sample n = Ok k /\ (0 <= k)%Z /\
    length (cW1 c) = Z.to_nat k /\ length (cW2 c) = Z.to_nat k /\
    length (cV c) = Z.to_nat k /\
    length (cE1 c) = Z.to_nat k /\ length (cE2 c) = Z.to_nat k /\
    length (cU1 c) = Z.to_nat k /\ length (cU2 c) = Z.to_nat k.
Proof.
  intros H; apply draw_candidates_inv in H
    as (a & k & s1 & s2 & s3 & _ & Hk & Hk0 & HW1 & HW2 & HV & HE1 & HE2
        & HU1 & HU2).
  pose proof (draws_result_length _ _ _ _ _ HW1) as LW1.
  pose proof (draws_result_length _ _ _ _ _ HW2) as LW2.
  pose proof (draws_result_length _ _ _ _ _ HE1) as LE1.
  pose proof (draws_result_length _ _ _ _ _ HE2) as LE2.
  assert (LV : length (cV c) = Z.to_nat k)
    by (rewrite (stable_V_length _ _ _ _ (eq_trans LW1 (eq_sym LW2)) HV);
        exact LW1).
  apply to_uniform_length in HU1, HU2.
  exists k; repeat split; auto; lia.
Qed.

End SamplerFacts.

(** One more statement of the body has run: a draw of non-negative size,
    or a scalar operation whose value is known. *)
Ltac step_draw := erewrite bind_ok by (apply sized_ok; assumption).
Ltac step_with H :=
  erewrite bind_ok by (unfold lift; rewrite H; reflexivity).

(** ** The vectorised code, element by element *)

Section Pointwise.

Context {rng : Type} {NP : NumPy rng}.

Lemma valid_mask_zip U1 U2 : valid_mask U1 U2 = zipWith valid_pair U1 U2.
Proof.
  unfold valid_mask.
  revert U2; induction U1 as [|u1 U1 IH]; intros [|u2 U2]; simpl; auto.
  rewrite IH; reflexivity.
Qed.

Lemma valid_mask_length U1 U2 :
  length U1 = length U2 -> length (valid_mask U1 U2) = length U1.
Proof. intros H; rewrite valid_mask_zip, zipWith_length; lia. Qed.

Lemma valid_mask_nth U1 U2 i u1 u2 :
  nth_error U1 i = Some u1 -> nth_error U2 i = Some u2 ->
  nth i (valid_mask U1 U2) false = valid_pair u1 u2.
Proof.
  intros H1 H2; apply nth_error_nth.
  rewrite valid_mask_zip, zipWith_nth_error, H1, H2; reflexivity.
Qed.

Lemma valid_pair_true u1 u2 :
  valid_pair u1 u2 = true <->
  (isfinite u1 = true /\ fltb fzero u1 = true /\ fltb u1 fone = true) /\
  (isfinite u2 = true /\ fltb fzero u2 = true /\ fltb u2 fone = true).
Proof. unfold valid_pair; rewrite !andb_true_iff; tauto. Qed.

Lemma stable_V_nth a W1 W2 V i w1 w2 :
  stable_V a W1 W2 = Ok V ->
  nth_error W1 i = Some w1 -> nth_error W2 i = Some w2 ->
  nth_error V i = Some (stable_variate a w1 w2).
Proof.
  unfold stable_V, stable_variate, cms_variate, py_truediv.
  intros HV H1 H2.
  destruct (feqb a fone).
  - injection HV as <-; rewrite nth_error_map, H1; reflexivity.
  - destruct (is_zero a); [discriminate|].
    injection HV as <-.
    rewrite !zipWith_nth_error, !nth_error_map, !zipWith_nth_error,
      !nth_error_map, !zipWith_nth_error, !nth_error_map, H1, H2.
    reflexivity.
Qed.

Lemma to_uniform_nth theta E V U i e v :
  to_uniform theta E V = Ok U ->
  nth_error E i = Some e -> nth_error V i = Some v ->
  nth_error U i = Some (gumbel_uniform theta e v).
Proof.
  unfold to_uniform, gumbel_uniform, py_truediv; intros HU H1 H2.
  destruct (is_zero theta); [discriminate|].
  injection HU as <-.
  rewrite !nth_error_map, zipWith_nth_error, H1, H2; reflexivity.
Qed.

(** Lines 70 to 73 read both coordinate arrays at the surviving
    positions. *)
Lemma select_valid_positions n U1 U2 :
  length U1 = length U2 ->
  select_valid n U1 U2 =
  Ok (mk_ndarray2
        (length (kept_indices n (valid_mask U1 U2)), 2)
        (map (fun i => [nth i U1 fzero; nth i U2 fzero])
             (kept_indices n (valid_mask U1 U2)))).
Proof.
  intros Hlen; unfold select_valid, column_stack.
  pose proof (valid_mask_length U1 U2 Hlen) as Hm.
  rewrite (slice_mask_positions fzero n U1) by congruence.
  rewrite (slice_mask_positions fzero n U2) by congruence.
  rewrite !length_map, Nat.eqb_refl, zipWith_map_same; reflexivity.
Qed.

Lemma gumbel_copula_sample_inv n theta s B s' :
  gumbel_copula_sample n theta s = (Ok B, s') ->
  exists c, draw_candidates n theta s = (Ok c, s') /\
            select_valid n (cU1 c) (cU2 c) = Ok B.
Proof.
  unfold gumbel_copula_sample; intros H.
  apply bind_ok_inv in H as (c & s1 & Hc & H).
  apply lift_ok_inv in H as [H ->]; eauto.
Qed.

Lemma stable_V_ok a W1 W2 :
  feqb a fone || negb (is_zero a) = true ->
  exists V, stable_V a W1 W2 = Ok V.
Proof.
  unfold stable_V, py_truediv; intros H.
  destruct (feqb a fone); [eauto|].
  simpl in H; rewrite negb_true_iff in H; rewrite H; eauto.
Qed.

Lemma to_uniform_ok theta E V :
  is_zero theta = false -> exists U, to_uniform theta E V = Ok U.
Proof. unfold to_uniform, py_truediv; intros ->; eauto. Qed.

(** A run succeeds as soon as its scalar operations do. *)
Lemma draw_candidates_ok n theta k s :
  scalars_defined theta = true -> n_sample n = Ok k -> (0 <= k)%Z ->
  exists c s', draw_candidates n theta s = (Ok c, s').
Proof.
  unfold scalars_defined; rewrite andb_true_iff, negb_true_iff.
  intros [Hth Ha] Hk Hk0.
  unfold draw_candidates, np_random_uniform, np_random_exponential.
  erewrite bind_ok
    by (unfold lift, alpha_stable, py_truediv; rewrite Hth; reflexivity).
  step_with Hk.
  step_draw.
  step_draw.
  match goal with
  | |- context [stable_V ?a ?W1 ?W2] =>
      destruct (stable_V_ok a W1 W2 Ha) as [V HV]
  end.
  step_with HV.
  step_draw.
  step_draw.
  match goal with
  | |- context [to_uniform theta ?E V] =>
      destruct (to_uniform_ok theta E V Hth) as [U1 HU1]
  end.
  step_with HU1.
  match goal with
  | |- context [bind (lift (to_uniform theta ?E V))] =>
      destruct (to_uniform_ok theta E V Hth) as [U2 HU2]
  end.
  step_with HU2.
  unfold ret; eauto.
Qed.

Lemma gumbel_copula_sample_ok n theta k s :
  scalars_defined theta = true -> n_sample n = Ok k -> (0 <= k)%Z ->
  exists B s', gumbel_copula_sample n theta s = (Ok B, s').
Proof.
  intros Hs Hk Hk0.
  destruct (draw_candidates_ok n theta k s Hs Hk Hk0) as (c & s' & Hc).
  destruct (draw_candidates_lengths _ _ _ _ _ Hc)
    as (k' & _ & _ & _ & _ & _ & _ & _ & L1 & L2).
  unfold gumbel_copula_sample, bind, lift; rewrite Hc.
  rewrite select_valid_positions by congruence; eauto.
Qed.

End Pointwise.


(** ** Failures *)

Section Failures.

Context {rng : Type} {NP : NumPy rng}.

Lemma bind_raise {A B : Type} (c : @M rng A) (k : A -> @M rng B) s e s1 :
  c s = (Raise e, s1) -> bind c k s = (Raise e, s1).
Proof. unfold bind; intros ->; reflexivity. Qed.

Lemma alpha_stable_inv theta a :
  alpha_stable theta = Ok a -> a = fdiv fone theta /\ is_zero theta = false.
Proof.
  unfold alpha_stable, py_truediv.
  destruct (is_zero theta); [discriminate | intros [= <-]; auto].
Qed.

Lemma n_sample_raise n e : n_sample n = Raise e -> e <> ZeroDivisionError.
Proof.
  unfold n_sample, py_float_of_int, py_int.
  destruct (is_inf (of_Z n)); [intros [= <-]; discriminate|].
  destruct (is_nan _); [intros [= <-]; discriminate|].
  destruct (is_inf _); [intros [= <-]; discriminate | discriminate].
Qed.

Lemma sized_raise (d : rng -> float * rng) size s e s' :
  sized d size s = (Raise e, s') -> e = ValueError /\ s' = s.
Proof.
  unfold sized; destruct (size <? 0)%Z; [intros [= <- <-]; auto|].
  destruct (draws _ d s); discriminate.
Qed.

Lemma select_valid_raise n U1 U2 e :
  select_valid n U1 U2 = Raise e -> e = ValueError.
Proof.
  unfold select_valid, column_stack.
  destruct (Nat.eqb _ _); [discriminate | intros [= <-]; reflexivity].
Qed.

(** A negative count fails at the first draw, a zero [theta] before it;
    no random number has been drawn in either case. *)
Lemma gumbel_negative_count n theta s :
  (- 2 ^ 51 < n < 0)%Z ->
  gumbel_copula_sample n theta s =
  (Raise (if is_zero theta then ZeroDivisionError else ValueError), s).
Proof.
  intros Hn; unfold gumbel_copula_sample, draw_candidates.
  apply bind_raise.
  unfold alpha_stable, py_truediv.
  destruct (is_zero theta); [reflexivity|].
  erewrite bind_ok by reflexivity.
  erewrite bind_ok
    by (unfold lift; rewrite n_sample_small by lia; reflexivity).
  apply bind_raise, sized_negative.
  Z.quot_rem_to_equations; lia.
Qed.

(** With [theta = 1.0] the run is on the [np.tan] branch. *)
Lemma alpha_stable_one : alpha_stable fone = Ok fone.
Proof. vm_compute; reflexivity. Qed.

Lemma stable_V_one W1 W2 : stable_V fone W1 W2 = Ok (map np_tan W1).
Proof. reflexivity. Qed.

Lemma draw_candidates_no_zero_division n s :
  fst (draw_candidates n fone s) <> Raise ZeroDivisionError.
Proof.
  unfold draw_candidates.
  step_with alpha_stable_one.
  destruct (n_sample n) as [k|e] eqn:Hk.
  2:{ erewrite bind_raise by (unfold lift; reflexivity).
      simpl; intros [= ->]; now apply (n_sample_raise n _ Hk). }
  erewrite bind_ok by reflexivity.
  unfold np_random_uniform, np_random_exponential.
  destruct (Z.ltb_spec k 0) as [Hneg|Hpos].
  { erewrite bind_raise by (apply sized_negative; assumption).
    simpl; discriminate. }
  step_draw.
  step_draw.
  step_with stable_V_one.
  step_draw.
  step_draw.
  unfold to_uniform; simpl py_truediv.
  erewrite bind_ok by reflexivity.
  erewrite bind_ok by reflexivity.
  simpl; discriminate.
Qed.

Lemma gumbel_no_zero_division n s :
  fst (gumbel_copula_sample n fone s) <> Raise ZeroDivisionError.
Proof.
  unfold gumbel_copula_sample.
  pose proof (draw_candidates_no_zero_division n s) as H.
  destruct (draw_candidates n fone s) as [[c|e] s1] eqn:Hc.
  - erewrite bind_ok by eassumption.
    unfold lift; simpl.
    destruct (select_valid n (cU1 c) (cU2 c)) eqn:Hs; [discriminate|].
    apply select_valid_raise in Hs as ->; discriminate.
  - erewrite bind_raise by eassumption.
    simpl in *; intros [= ->]; now apply H.
Qed.

Lemma stable_V_nil a :
  feqb a fone || negb (is_zero a) = true -> stable_V a [] [] = Ok [].
Proof.
  unfold stable_V, py_truediv; intros H.
  destruct (feqb a fone); [reflexivity|].
  simpl in H; rewrite negb_true_iff in H; rewrite H; reflexivity.
Qed.

Lemma to_uniform_nil theta :
  is_zero theta = false -> to_uniform theta [] [] = Ok [].
Proof. unfold to_uniform, py_truediv; intros ->; reflexivity. Qed.

(** A request for no sample draws nothing and stacks two empty columns. *)
Lemma gumbel_zero_count theta s :
  scalars_defined theta = true ->
  gumbel_copula_sample 0 theta s = (Ok (mk_ndarray2 (0, 2) []), s).
Proof.
  unfold scalars_defined; rewrite andb_true_iff, negb_true_iff.
  intros [Hth Ha]; unfold gumbel_copula_sample, draw_candidates.
  (* [U[valid][:0]] is empty whatever the candidates are *)
  erewrite bind_ok; [reflexivity|].
  erewrite bind_ok
    by (unfold lift, alpha_stable, py_truediv; rewrite Hth; reflexivity).
  erewrite bind_ok by reflexivity.
  erewrite bind_ok by reflexivity.
  erewrite bind_ok by reflexivity.
  erewrite bind_ok by (unfold lift; rewrite stable_V_nil by exact Ha;
                       reflexivity).
  erewrite bind_ok by reflexivity.
  erewrite bind_ok by reflexivity.
  erewrite bind_ok by (unfold lift; rewrite to_uniform_nil by exact Hth;
                       reflexivity).
  erewrite bind_ok by (unfold lift; rewrite to_uniform_nil by exact Hth;
                       reflexivity).
  reflexivity.
Qed.

End Failures.

(** ** The sampler against its specification *)

Section Claims.

Context {rng : Type} {NP : NumPy rng}.

Lemma nth_error_lt {A : Type} (l : list A) i :
  i < length l -> exists x, nth_error l i = Some x.
Proof.
  intros H; destruct (nth_error l i) eqn:E; [eauto|].
  apply nth_error_None in E; lia.
Qed.

(** The two coordinates of a candidate, from its draws. *)
Lemma candidate_pair_nth n theta s c s' i :
  draw_candidates n theta s = (Ok c, s') ->
  i < length (cV c) ->
  exists v e1 e2,
    nth_error (cV c) i = Some v /\
    nth_error (cE1 c) i = Some e1 /\
    nth_error (cE2 c) i = Some e2 /\
    nth_error (cU1 c) i = Some (gumbel_uniform theta e1 v) /\
    nth_error (cU2 c) i = Some (gumbel_uniform theta e2 v).
Proof.
  intros Hrun Hi.
  destruct (draw_candidates_lengths _ _ _ _ _ Hrun)
    as (k & _ & _ & _ & _ & LV & LE1 & LE2 & _ & _).
  apply draw_candidates_inv in Hrun
    as (a & k' & s1 & s2 & s3 & _ & _ & _ & _ & _ & _ & _ & _ & HU1 & HU2).
  destruct (nth_error_lt (cV c) i Hi) as [v Hv].
  destruct (nth_error_lt (cE1 c) i) as [e1 He1]; [lia|].
  destruct (nth_error_lt (cE2 c) i) as [e2 He2]; [lia|].
  exists v, e1, e2; repeat split; auto.
  - exact (to_uniform_nth _ _ _ _ _ _ _ HU1 He1 Hv).
  - exact (to_uniform_nth _ _ _ _ _ _ _ HU2 He2 Hv).
Qed.

(** C3: every candidate coordinate is
    [U_i = exp(-(E_i / V)^(1/theta))], and the two coordinates of a
    candidate are computed from the same stable variate [V]. *)
Theorem candidate_pair_formula n theta s c s' i :
  draw_candidates n theta s = (Ok c, s') ->
  i < length (cV c) ->
  exists v e1 e2,
    nth_error (cV c) i = Some v /\
    nth_error (cE1 c) i = Some e1 /\
    nth_error (cE2 c) i = Some e2 /\
    nth_error (cU1 c) i =
      Some (np_exp (fneg (np_power (fdiv e1 v) (fdiv fone theta)))) /\
    nth_error (cU2 c) i =
      Some (np_exp (fneg (np_power (fdiv e2 v) (fdiv fone theta)))).
Proof. exact (candidate_pair_nth n theta s c s' i). Qed.

(** C4: [W1] is drawn by [np.random.uniform(1e-10, np.pi - 1e-10)] and
    [W2] by [np.random.exponential(1)], and with [alpha_s = 1.0 / theta]
    every stable variate is [tan(W1)] when [alpha_s == 1] and
    [sin(alpha_s W1) / cos(W1)^(1/alpha_s)
     * (cos(W1 - alpha_s W1) / W2)^((1 - alpha_s)/alpha_s)] otherwise. *)
Theorem stable_variate_cms n theta s c s' :
  draw_candidates n theta s = (Ok c, s') ->
  exists k s1 s2,
    n_sample n = Ok k /\
    draws (Z.to_nat k) (uniform1 f1e_10 (fsub fpi f1e_10)) s = (cW1 c, s1) /\
    draws (Z.to_nat k) (exponential1 fone) s1 = (cW2 c, s2) /\
    forall i, i < Z.to_nat k ->
      exists w1 w2,
        nth_error (cW1 c) i = Some w1 /\
        nth_error (cW2 c) i = Some w2 /\
        let a := fdiv fone theta in
        nth_error (cV c) i =
        Some (if feqb a fone then np_tan w1
              else fmul (fdiv (np_sin (fmul a w1))
                              (np_power (np_cos w1) (fdiv fone a)))
                        (np_power (fdiv (np_cos (fsub w1 (fmul a w1))) w2)
                                  (fdiv (fsub fone a) a))).
Proof.
  intros Hrun.
  destruct (draw_candidates_lengths _ _ _ _ _ Hrun)
    as (k & Hk & _ & LW1 & LW2 & _).
  apply draw_candidates_inv in Hrun
    as (a & k' & s1 & s2 & s3 & Ha & Hk' & _ & HW1 & HW2 & HV & _).
  assert (k' = k) as -> by congruence.
  apply alpha_stable_inv in Ha as [-> _].
  exists k, s1, s2; repeat split; auto.
  intros i Hi.
  destruct (nth_error_lt (cW1 c) i) as [w1 Hw1]; [lia|].
  destruct (nth_error_lt (cW2 c) i) as [w2 Hw2]; [lia|].
  exists w1, w2; repeat split; auto.
  exact (stable_V_nth _ _ _ _ _ _ _ HV Hw1 Hw2).
Qed.




(** What lines 70 to 73 return after a successful draw. *)
Lemma gumbel_batch n theta s B s' :
  gumbel_copula_sample n theta s = (Ok B, s') ->
  exists c,
    draw_candidates n theta s = (Ok c, s') /\
    length (cU1 c) = length (cU2 c) /\
    length (cV c) = length (cU1 c) /\
    B = mk_ndarray2
          (length (kept_indices n (valid_mask (cU1 c) (cU2 c))), 2)
          (map (fun i => [nth i (cU1 c) fzero; nth i (cU2 c) fzero])
               (kept_indices n (valid_mask (cU1 c) (cU2 c)))).
Proof.
  intros H; apply gumbel_copula_sample_inv in H as (c & Hc & HB).
  destruct (draw_candidates_lengths _ _ _ _ _ Hc)
    as (k & _ & _ & _ & _ & LV & _ & _ & L1 & L2).
  rewrite select_valid_positions in HB by congruence.
  exists c; repeat split; congruence.
Qed.

(** C9: for [n >= 0] and [theta > 0] the returned batch has two columns
    and [min n v] rows, where [v] counts the candidates of the oversampled
    draw that pass the validity test; in particular it never has more than
    [n] rows.  Such a batch is returned for every [n] below 2^51 and every
    finite [theta]. *)
Theorem batch_shape n theta s :
  (0 <= n)%Z -> fltb fzero theta = true ->
  (forall B s',
     gumbel_copula_sample n theta s = (Ok B, s') ->
     exists c,
       draw_candidates n theta s = (Ok c, s') /\
       shape B =
         (Nat.min (Z.to_nat n)
                  (count_true (zipWith valid_pair (cU1 c) (cU2 c))), 2) /\
       length (rows B) = fst (shape B) /\
       Forall (fun r => length r = 2) (rows B) /\
       fst (shape B) <= Z.to_nat n) /\
  ((n < 2 ^ 51)%Z -> is_binary64 theta = true -> isfinite theta = true ->
   exists B s', gumbel_copula_sample n theta s = (Ok B, s')).
Proof.
  intros Hn Hth; split.
  - intros B s' H; apply gumbel_batch in H as (c & Hc & L12 & _ & ->).
    exists c; simpl; rewrite kept_indices_length, valid_mask_zip by assumption.
    repeat split; auto.
    + now rewrite length_map, kept_indices_length.
    + apply Forall_forall; intros r Hr.
      apply in_map_iff in Hr as (i & <- & _); reflexivity.
    + apply Nat.le_min_l.
  - intros Hn' Hv Hf.
    apply (gumbel_copula_sample_ok n theta (Z.quot (3 * n) 2)).
    + apply scalars_defined_finite; auto.
      destruct theta; try reflexivity; discriminate.
    + apply n_sample_small; lia.
    + Z.quot_rem_to_equations; lia.
Qed.

(** C10: one mask selects from both coordinate arrays, so every returned
    pair is the pair of one candidate position, computed from that
    position's stable variate, and the returned pairs follow the order of
    the draw. *)
Theorem pairs_share_candidate n theta s B s' :
  gumbel_copula_sample n theta s = (Ok B, s') ->
  exists c K,
    draw_candidates n theta s = (Ok c, s') /\
    K = kept_indices n (valid_mask (cU1 c) (cU2 c)) /\
    rows B = map (fun i => [nth i (cU1 c) fzero; nth i (cU2 c) fzero]) K /\
    StronglySorted lt K /\
    forall i, In i K ->
      exists v e1 e2,
        nth_error (cV c) i = Some v /\
        nth_error (cE1 c) i = Some e1 /\
        nth_error (cE2 c) i = Some e2 /\
        nth i (cU1 c) fzero = gumbel_uniform theta e1 v /\
        nth i (cU2 c) fzero = gumbel_uniform theta e2 v.
Proof.
  intros H; apply gumbel_batch in H as (c & Hc & L12 & LV & ->).
  exists c, (kept_indices n (valid_mask (cU1 c) (cU2 c))).
  repeat split; auto using kept_indices_sorted.
  intros i Hi; apply kept_indices_valid in Hi as [Hi _].
  rewrite valid_mask_length in Hi by assumption.
  destruct (candidate_pair_nth n theta s c s' i Hc)
    as (v & e1 & e2 & Hv & He1 & He2 & HU1 & HU2); [lia|].
  exists v, e1, e2; repeat split; auto;
    apply nth_error_nth; assumption.
Qed.

(** C2, amended: both coordinates of every returned pair are finite and
    strictly between 0 and 1, and a candidate is kept exactly when it is
    valid and fewer than [n] valid candidates come before it. *)
Theorem returned_pairs_valid n theta s B s' :
  (0 <= n)%Z ->
  gumbel_copula_sample n theta s = (Ok B, s') ->
  exists c,
    draw_candidates n theta s = (Ok c, s') /\
    rows B = map (fun i => [nth i (cU1 c) fzero; nth i (cU2 c) fzero])
                 (kept_indices n (valid_mask (cU1 c) (cU2 c))) /\
    (forall r, In r (rows B) ->
       exists u1 u2, r = [u1; u2] /\
         (isfinite u1 = true /\ fltb fzero u1 = true /\ fltb u1 fone = true)
         /\
         (isfinite u2 = true /\ fltb fzero u2 = true /\ fltb u2 fone = true))
    /\
    (forall i u1 u2,
       nth_error (cU1 c) i = Some u1 -> nth_error (cU2 c) i = Some u2 ->
       (In i (kept_indices n (valid_mask (cU1 c) (cU2 c))) <->
        valid_pair u1 u2 = true /\
        count_true (firstn i (valid_mask (cU1 c) (cU2 c))) < Z.to_nat n)).
Proof.
  intros Hn H; apply gumbel_batch in H as (c & Hc & L12 & _ & ->).
  exists c; simpl; split; [assumption|]; split; [reflexivity|]; split.
  - intros r Hr; apply in_map_iff in Hr as (i & <- & Hi).
    apply kept_indices_valid in Hi as [Hi Hv].
    rewrite valid_mask_length in Hi by assumption.
    destruct (nth_error_lt (cU1 c) i Hi) as [u1 H1].
    destruct (nth_error_lt (cU2 c) i) as [u2 H2]; [lia|].
    rewrite (valid_mask_nth _ _ _ _ _ H1 H2) in Hv.
    rewrite (nth_error_nth _ _ _ H1), (nth_error_nth _ _ _ H2).
    exists u1, u2; split; [reflexivity|].
    now apply valid_pair_true.
  - intros i u1 u2 H1 H2.
    rewrite kept_indices_spec by assumption.
    rewrite (valid_mask_nth _ _ _ _ _ H1 H2).
    rewrite valid_mask_length by assumption.
    assert (i < length (cU1 c)) by (apply nth_error_Some; congruence).
    tauto.
Qed.

(** C8, amended: for [0 <= n < 2^51] the generator draws
    [int(n * 1.5)], that is [3 n / 2] rounded down, raw candidates, and
    [W1], [W2], [V], [E1], [E2], [U1] and [U2] all have that length. *)
Theorem oversampled_lengths n theta s :
  (0 <= n < 2 ^ 51)%Z ->
  is_binary64 theta = true -> isfinite theta = true ->
  is_zero theta = false ->
  exists c s',
    draw_candidates n theta s = (Ok c, s') /\
    n_sample n = Ok (3 * n / 2)%Z /\
    length (cW1 c) = Z.to_nat (3 * n / 2) /\
    length (cW2 c) = Z.to_nat (3 * n / 2) /\
    length (cV c) = Z.to_nat (3 * n / 2) /\
    length (cE1 c) = Z.to_nat (3 * n / 2) /\
    length (cE2 c) = Z.to_nat (3 * n / 2) /\
    length (cU1 c) = Z.to_nat (3 * n / 2) /\
    length (cU2 c) = Z.to_nat (3 * n / 2).
Proof.
  intros Hn Hv Hf Hz.
  assert (Hk : n_sample n = Ok (3 * n / 2)%Z).
  { rewrite n_sample_small by lia.
    rewrite Z.quot_div_nonneg by lia; reflexivity. }
  destruct (draw_candidates_ok n theta (3 * n / 2) s) as (c & s' & Hc).
  - apply scalars_defined_finite; assumption.
  - exact Hk.
  - apply Z.div_pos; lia.
  - destruct (draw_candidates_lengths _ _ _ _ _ Hc)
      as (k & Hk' & _ & L).
    assert (k = (3 * n / 2)%Z) as -> by congruence.
    exists c, s'; repeat split; solve [assumption | apply L].
Qed.

(** C6, amended: the generator checks neither parameter.  For every
    [n < 0] above -2^51 it fails before any random number is drawn, with
    [ZeroDivisionError] when [theta] is a zero and with NumPy's [ValueError]
    for a negative size otherwise; for [0 <= n < 2^51] and every finite
    nonzero [theta], smaller than 1 or not, it returns a batch. *)
Theorem no_parameter_check n theta s :
  ((- 2 ^ 51 < n < 0)%Z ->
   gumbel_copula_sample n theta s =
   (Raise (if is_zero theta then ZeroDivisionError else ValueError), s)) /\
  ((0 <= n < 2 ^ 51)%Z ->
   is_binary64 theta = true -> isfinite theta = true ->
   is_zero theta = false ->
   exists B s', gumbel_copula_sample n theta s = (Ok B, s')).
Proof.
  split.
  - apply gumbel_negative_count.
  - intros Hn Hv Hf Hz.
    apply (gumbel_copula_sample_ok n theta (Z.quot (3 * n) 2)).
    + apply scalars_defined_finite; assumption.
    + apply n_sample_small; lia.
    + Z.quot_rem_to_equations; lia.
Qed.

(** C7: a request for [n = 0] returns an empty batch and raises nothing,
    and with [theta] exactly 1 the stable variates are [tan(W1)] and no
    run raises [ZeroDivisionError]. *)
Theorem boundary_cases :
  (forall theta s,
     is_binary64 theta = true -> isfinite theta = true ->
     is_zero theta = false ->
     gumbel_copula_sample 0 theta s = (Ok (mk_ndarray2 (0, 2) []), s)) /\
  (forall n s c s',
     draw_candidates n fone s = (Ok c, s') -> cV c = map np_tan (cW1 c)) /\
  (forall n s, fst (gumbel_copula_sample n fone s) <> Raise ZeroDivisionError)
  /\
  (forall n s, (0 <= n < 2 ^ 51)%Z ->
     exists B s', gumbel_copula_sample n fone s = (Ok B, s')).
Proof.
  repeat split.
  - intros theta s Hv Hf Hz.
    apply gumbel_zero_count, scalars_defined_finite; assumption.
  - intros n s c s' Hc.
    apply draw_candidates_inv in Hc
      as (a & k & s1 & s2 & s3 & Ha & _ & _ & _ & _ & HV & _).
    rewrite alpha_stable_one in Ha; injection Ha as <-.
    rewrite stable_V_one in HV; congruence.
  - apply gumbel_no_zero_division.
  - intros n s Hn.
    apply (gumbel_copula_sample_ok n fone (Z.quot (3 * n) 2)).
    + reflexivity.
    + apply n_sample_small; lia.
    + Z.quot_rem_to_equations; lia.
Qed.

End Claims.

(** ** The recorded runs *)

Section RecordedRuns.

Import Replay.

Lemma run_candidates_three :
  run_candidates tape_three 2 fone = (Ok three, []).
Proof. vm_compute; reflexivity. Qed.

Lemma run_three : run tape_three 2 fone = (Ok batch_three, []).
Proof. vm_compute; reflexivity. Qed.

(** C1: with [n = 1], [theta = 1.0] and the draws [W1 = 2.0],
    [E1 = E2 = 1.0], the only candidate is [U1 = U2 = 1.58...], which the
    filter rejects: the call raises nothing and returns a batch of no row
    where one pair was requested. *)
Theorem truncated_batch_returned :
  run tape_one 1 fone = (Ok empty_batch, []) /\
  cU1 one = [S754_finite false 7117343476484627 (-52)] /\
  length (rows empty_batch) < Z.to_nat 1.
Proof. vm_compute; repeat split; lia. Qed.

(** C2 fails as stated: with [n = 2] the three candidates of the recorded
    run are all valid, and the third one is not kept. *)
Lemma valid_candidate_dropped :
  run_candidates tape_three 2 fone = (Ok three, []) /\
  run tape_three 2 fone = (Ok batch_three, []) /\
  valid_pair (nth 2 (cU1 three) fzero) (nth 2 (cU2 three) fzero) = true /\
  ~ In [nth 2 (cU1 three) fzero; nth 2 (cU2 three) fzero]
       (rows batch_three) /\
  ~ In 2 (kept_indices 2 (valid_mask (cU1 three) (cU2 three))).
Proof.
  repeat split; try (vm_compute; reflexivity).
  - vm_compute; intros [H|[H|[]]]; discriminate.
  - vm_compute; intros [H|[H|[]]]; discriminate.
Qed.

(** C6 fails as stated: [theta = 0.5] and [n = 0] are accepted, and an
    empty batch is returned. *)
Lemma small_theta_and_zero_count_accepted :
  fltb f0_5 fone = true /\ (0 <= 0)%Z /\
  run [] 0 f0_5 = (Ok empty_batch, []).
Proof. vm_compute; repeat split; discriminate. Qed.

(** C8 fails as stated: for [n = 1] one candidate is drawn, not 1.5. *)
Lemma one_candidate_for_one_sample :
  run_candidates tape_one 1 fone = (Ok one, []) /\
  length (cV one) = 1 /\
  (2 * Z.of_nat (length (cV one)) <> 3 * 1)%Z.
Proof. vm_compute; repeat split; discriminate. Qed.

(** *** The theorems at the recorded runs *)

Lemma candidate_pair_formula_witness :
  run_candidates tape_three 2 fone = (Ok three, []) /\
  1 < length (cV three) /\
  exists v e1 e2,
    nth_error (cV three) 1 = Some v /\
    nth_error (cE1 three) 1 = Some e1 /\
    nth_error (cE2 three) 1 = Some e2 /\
    nth_error (cU1 three) 1 =
      Some (@gumbel_uniform _ (numpy tape_three) fone e1 v) /\
    nth_error (cU2 three) 1 =
      Some (@gumbel_uniform _ (numpy tape_three) fone e2 v).
Proof.
  split; [vm_compute; reflexivity|].
  split; [vm_compute; lia|].
  apply (@candidate_pair_formula _ (numpy tape_three) 2 fone tape_three
           three [] 1); [vm_compute; reflexivity | vm_compute; lia].
Defined.


Lemma stable_variate_cms_witness :
  run_candidates tape_three 2 fone = (Ok three, []) /\
  exists k s1 s2,
    n_sample 2 = Ok k /\
    draws (Z.to_nat k) (@uniform1 _ (numpy tape_three) f1e_10
                          (fsub fpi f1e_10)) tape_three = (cW1 three, s1) /\
    draws (Z.to_nat k) (@exponential1 _ (numpy tape_three) fone) s1
    = (cW2 three, s2) /\
    forall i, i < Z.to_nat k ->
      exists w1 w2,
        nth_error (cW1 three) i = Some w1 /\
        nth_error (cW2 three) i = Some w2 /\
        nth_error (cV three) i =
          Some (@stable_variate _ (numpy tape_three) (fdiv fone fone) w1 w2).
Proof.
  split; [vm_compute; reflexivity|].
  apply (@stable_variate_cms _ (numpy tape_three) 2 fone tape_three three []).
  vm_compute; reflexivity.
Defined.

Lemma batch_shape_witness :
  (0 <= 2)%Z /\ fltb fzero fone = true /\
  (forall B s',
     run tape_three 2 fone = (Ok B, s') ->
     exists c,
       run_candidates tape_three 2 fone = (Ok c, s') /\
       shape B =
         (Nat.min (Z.to_nat 2)
                  (count_true (zipWith valid_pair (cU1 c) (cU2 c))), 2) /\
       length (rows B) = fst (shape B) /\
       Forall (fun r => length r = 2) (rows B) /\
       fst (shape B) <= Z.to_nat 2) /\
  ((2 < 2 ^ 51)%Z -> is_binary64 fone = true -> isfinite fone = true ->
   exists B s', run tape_three 2 fone = (Ok B, s')).
Proof.
  split; [lia|]; split; [vm_compute; reflexivity|].
  apply (@batch_shape _ (numpy tape_three) 2 fone tape_three);
    [lia | vm_compute; reflexivity].
Defined.

Lemma pairs_share_candidate_witness :
  run tape_three 2 fone = (Ok batch_three, []) /\
  exists c K,
    run_candidates tape_three 2 fone = (Ok c, []) /\
    K = kept_indices 2 (valid_mask (cU1 c) (cU2 c)) /\
    rows batch_three =
      map (fun i => [nth i (cU1 c) fzero; nth i (cU2 c) fzero]) K /\
    StronglySorted lt K /\
    forall i, In i K ->
      exists v e1 e2,
        nth_error (cV c) i = Some v /\
        nth_error (cE1 c) i = Some e1 /\
        nth_error (cE2 c) i = Some e2 /\
        nth i (cU1 c) fzero = @gumbel_uniform _ (numpy tape_three) fone e1 v
        /\
        nth i (cU2 c) fzero = @gumbel_uniform _ (numpy tape_three) fone e2 v.
Proof.
  split; [vm_compute; reflexivity|].
  apply (@pairs_share_candidate _ (numpy tape_three) 2 fone tape_three
           batch_three []).
  vm_compute; reflexivity.
Defined.

Lemma returned_pairs_valid_witness :
  (0 <= 2)%Z /\
  run tape_three 2 fone = (Ok batch_three, []) /\
  exists c,
    run_candidates tape_three 2 fone = (Ok c, []) /\
    rows batch_three =
      map (fun i => [nth i (cU1 c) fzero; nth i (cU2 c) fzero])
          (kept_indices 2 (valid_mask (cU1 c) (cU2 c))) /\
    (forall r, In r (rows batch_three) ->
       exists u1 u2, r = [u1; u2] /\
         (isfinite u1 = true /\ fltb fzero u1 = true /\ fltb u1 fone = true)
         /\
         (isfinite u2 = true /\ fltb fzero u2 = true /\ fltb u2 fone = true))
    /\
    (forall i u1 u2,
       nth_error (cU1 c) i = Some u1 -> nth_error (cU2 c) i = Some u2 ->
       (In i (kept_indices 2 (valid_mask (cU1 c) (cU2 c))) <->
        valid_pair u1 u2 = true /\
        count_true (firstn i (valid_mask (cU1 c) (cU2 c))) < Z.to_nat 2)).
Proof.
  split; [lia|]; split; [vm_compute; reflexivity|].
  apply (@returned_pairs_valid _ (numpy tape_three) 2 fone tape_three
           batch_three []); [lia | vm_compute; reflexivity].
Defined.

Lemma oversampled_lengths_witness :
  (0 <= 3 < 2 ^ 51)%Z /\
  is_binary64 fone = true /\ isfinite fone = true /\ is_zero fone = false /\
  exists c s',
    run_candidates tape_three 3 fone = (Ok c, s') /\
    n_sample 3 = Ok (3 * 3 / 2)%Z /\
    length (cW1 c) = Z.to_nat (3 * 3 / 2) /\
    length (cW2 c) = Z.to_nat (3 * 3 / 2) /\
    length (cV c) = Z.to_nat (3 * 3 / 2) /\
    length (cE1 c) = Z.to_nat (3 * 3 / 2) /\
    length (cE2 c) = Z.to_nat (3 * 3 / 2) /\
    length (cU1 c) = Z.to_nat (3 * 3 / 2) /\
    length (cU2 c) = Z.to_nat (3 * 3 / 2).
Proof.
  split; [lia|]; repeat (split; [vm_compute; reflexivity|]).
  apply (@oversampled_lengths _ (numpy tape_three) 3 fone tape_three);
    [lia | vm_compute; reflexivity ..].
Defined.

Lemma no_parameter_check_witness :
  ((- 2 ^ 51 < -1 < 0)%Z /\
   run [] (-1) f0_5 = (Raise ValueError, [])) /\
  ((0 <= 0 < 2 ^ 51)%Z /\
   is_binary64 f0_5 = true /\ isfinite f0_5 = true /\ is_zero f0_5 = false /\
   exists B s', run [] 0 f0_5 = (Ok B, s')).
Proof.
  split.
  - split; [lia|].
    apply (proj1 (@no_parameter_check _ (numpy []) (-1) f0_5 [])); lia.
  - split; [lia|]; repeat (split; [vm_compute; reflexivity|]).
    apply (proj2 (@no_parameter_check _ (numpy []) 0 f0_5 []));
      [lia | vm_compute; reflexivity ..].
Defined.

Lemma boundary_cases_witness :
  (is_binary64 fone = true /\ isfinite fone = true /\ is_zero fone = false /\
   run tape_one 0 fone = (Ok empty_batch, tape_one)) /\
  (run_candidates tape_one 1 fone = (Ok one, []) /\
   cV one = map (@np_tan _ (numpy tape_one)) (cW1 one)) /\
  fst (run tape_three 2 fone) <> Raise ZeroDivisionError /\
  ((0 <= 2 < 2 ^ 51)%Z /\ exists B s', run tape_three 2 fone = (Ok B, s')).
Proof.
  pose proof (@boundary_cases _ (numpy tape_one)) as (H0 & H1 & _ & _).
  pose proof (@boundary_cases _ (numpy tape_three)) as (_ & _ & H2 & H3).
  split; [|split; [|split; [|split]]].
  - repeat (split; [vm_compute; reflexivity|]).
    apply H0; vm_compute; reflexivity.
  - split; [vm_compute; reflexivity|].
    apply (H1 1%Z tape_one one []); vm_compute; reflexivity.
  - apply H2.
  - lia.
  - apply H3; lia.
Defined.

End RecordedRuns.

(** ** More of the sampler: failures that consume draws, what the draws
    depend on, and the batch as a list of pairs *)

Lemma count_true_le (m : list bool) : count_true m <= length m.
Proof. induction m as [|[] m IH]; simpl; lia. Qed.

Lemma mask_zip_filter {A B C : Type} (p : A -> B -> bool) (f : A -> B -> C) :
  forall a b,
    zipWith f (mask_select a (zipWith p a b)) (mask_select b (zipWith p a b))
    = map (fun x => f (fst x) (snd x))
          (filter (fun x => p (fst x) (snd x)) (combine a b)).
Proof.
  induction a as [|x a IH]; intros [|y b]; simpl; auto.
  destruct (p x y); simpl; rewrite IH; reflexivity.
Qed.

Lemma three_halves n : (0 <= n)%Z ->
  Z.to_nat (3 * n / 2) = Z.to_nat n + Z.to_nat (n / 2).
Proof.
  intros Hn.
  replace (3 * n)%Z with (n * 2 + n)%Z by ring.
  rewrite Z.div_add_l by lia.
  apply Z2Nat.inj_add; [lia | apply Z.div_pos; lia].
Qed.

Section Beyond.

Context {rng : Type} {NP : NumPy rng}.

(** X1: a zero [theta], of either sign, stops the call at its first statement:
    [ZeroDivisionError] is raised for every [n] and no random number has
    been drawn. *)
Theorem zero_theta_raises n theta s :
  is_zero theta = true ->
  gumbel_copula_sample n theta s = (Raise ZeroDivisionError, s).
Proof.
  intros H; unfold gumbel_copula_sample, draw_candidates.
  apply bind_raise, bind_raise.
  unfold lift, alpha_stable, py_truediv; rewrite H; reflexivity.
Qed.

(** X2: an infinite [theta] makes [alpha_stable] a zero, and the call fails at
    [1/alpha_stable] on line 57, after [W1] and [W2] have been drawn: the
    caller gets [ZeroDivisionError] and a generator advanced by twice
    [int(n * 1.5)] draws. *)
Theorem infinite_theta_consumes_draws n theta s :
  is_inf theta = true -> (0 <= n < 2 ^ 51)%Z ->
  gumbel_copula_sample n theta s =
  (Raise ZeroDivisionError,
   snd (draws (Z.to_nat (3 * n / 2)) (exponential1 fone)
          (snd (draws (Z.to_nat (3 * n / 2))
                  (uniform1 f1e_10 (fsub fpi f1e_10)) s)))).
Proof.
  intros Hinf Hn.
  destruct theta as [b|b| |b m e]; try discriminate.
  assert (Hk : n_sample n = Ok (3 * n / 2)%Z).
  { rewrite n_sample_small by lia.
    rewrite Z.quot_div_nonneg by lia; reflexivity. }
  assert (Hk0 : (0 <= 3 * n / 2)%Z) by (apply Z.div_pos; lia).
  unfold gumbel_copula_sample, draw_candidates.
  apply bind_raise.
  erewrite bind_ok by reflexivity.
  step_with Hk.
  unfold np_random_uniform, np_random_exponential.
  step_draw.
  step_draw.
  apply bind_raise.
  destruct b; reflexivity.
Qed.

(** X3: the raw draws and the generator state a call leaves behind do not
    depend on [theta]: two successful calls with the same [n] from the same
    state draw the same [W1], [W2], [E1], [E2] and end in the same state. *)
Theorem draws_independent_of_theta n theta1 theta2 s c1 s1 c2 s2 :
  draw_candidates n theta1 s = (Ok c1, s1) ->
  draw_candidates n theta2 s = (Ok c2, s2) ->
  cW1 c1 = cW1 c2 /\ cW2 c1 = cW2 c2 /\
  cE1 c1 = cE1 c2 /\ cE2 c1 = cE2 c2 /\ s1 = s2.
Proof.
  intros H1 H2.
  apply draw_candidates_inv in H1
    as (a1 & k1 & t1 & t2 & t3 & _ & Hk1 & _ & HW1 & HW2 & _ & HE1 & HE2 & _).
  apply draw_candidates_inv in H2
    as (a2 & k2 & u1 & u2 & u3 & _ & Hk2 & _ & GW1 & GW2 & _ & GE1 & GE2 & _).
  assert (k2 = k1) as -> by congruence.
  rewrite HW1 in GW1; injection GW1 as E1 <-.
  rewrite HW2 in GW2; injection GW2 as E2 <-.
  rewrite HE1 in GE1; injection GE1 as E3 <-.
  rewrite HE2 in GE2; injection GE2 as E4 <-.
  auto.
Qed.

(** X4: the returned rows are the first [n] valid candidate pairs: filtering
    the paired coordinates by the validity test and keeping [n] of them
    gives the same rows as masking each column, slicing and stacking. *)
Theorem batch_is_first_valid_pairs n theta s B s' :
  (0 <= n)%Z ->
  gumbel_copula_sample n theta s = (Ok B, s') ->
  exists c,
    draw_candidates n theta s = (Ok c, s') /\
    rows B =
    firstn (Z.to_nat n)
      (map (fun p => [fst p; snd p])
         (filter (fun p => valid_pair (fst p) (snd p))
            (combine (cU1 c) (cU2 c)))).
Proof.
  intros Hn H; apply gumbel_copula_sample_inv in H as (c & Hc & HB).
  exists c; split; [assumption|].
  unfold select_valid, column_stack in HB.
  destruct (Nat.eqb _ _); [|discriminate].
  injection HB as <-; simpl.
  rewrite !slice_to_nonneg, <- zipWith_firstn, valid_mask_zip by assumption.
  rewrite (mask_zip_filter valid_pair (fun x y => [x; y])); reflexivity.
Qed.

(** X5: the margin of the 1.5 oversampling: for [0 <= n < 2^51] the batch has
    exactly [n] rows if and only if at most [n / 2] (rounded down) of the
    candidates are rejected by the validity test. *)
Theorem full_batch_iff n theta s B s' :
  (0 <= n < 2 ^ 51)%Z ->
  gumbel_copula_sample n theta s = (Ok B, s') ->
  exists c,
    draw_candidates n theta s = (Ok c, s') /\
    (fst (shape B) = Z.to_nat n <->
     length (cU1 c) - count_true (valid_mask (cU1 c) (cU2 c))
     <= Z.to_nat (n / 2)).
Proof.
  intros Hn H; apply gumbel_batch in H as (c & Hc & L12 & _ & ->).
  exists c; split; [assumption|]; simpl.
  rewrite kept_indices_length by lia.
  destruct (draw_candidates_lengths _ _ _ _ _ Hc)
    as (k & Hk & _ & _ & _ & _ & _ & _ & LU1 & _).
  assert (Hk' : n_sample n = Ok (3 * n / 2)%Z).
  { rewrite n_sample_small by lia.
    rewrite Z.quot_div_nonneg by lia; reflexivity. }
  assert (k = (3 * n / 2)%Z) as -> by congruence.
  rewrite three_halves in LU1 by lia.
  pose proof (count_true_le (valid_mask (cU1 c) (cU2 c))) as Hle.
  rewrite valid_mask_length in Hle by assumption.
  lia.
Qed.

(** X6: reading the returned array by columns, as the script does, gives back
    the two filtered coordinate arrays; there is no third column. *)
Theorem columns_are_filtered_arrays n theta s U s' :
  gumbel_copula_sample n theta s = (Ok U, s') ->
  exists c,
    draw_candidates n theta s = (Ok c, s') /\
    column 0 U =
      Some (slice_to n (mask_select (cU1 c) (valid_mask (cU1 c) (cU2 c)))) /\
    column 1 U =
      Some (slice_to n (mask_select (cU2 c) (valid_mask (cU1 c) (cU2 c)))) /\
    column 2 U = None.
Proof.
  intros H; apply gumbel_batch in H as (c & Hc & L12 & _ & ->).
  pose proof (valid_mask_length _ _ L12) as Lm.
  exists c; split; [assumption|]; unfold column; simpl.
  rewrite !map_map; simpl.
  rewrite <- (slice_mask_positions fzero n (cU1 c)) by congruence.
  rewrite <- (slice_mask_positions fzero n (cU2 c)) by congruence.
  auto.
Qed.

(** X8: a count of 2^1024 or more, of either sign, cannot be converted for
    [n * 1.5]: unless [theta] is a zero, the call raises [OverflowError]
    before any random number is drawn. *)
Theorem huge_count_overflows n theta s :
  (2 ^ 1024 <= Z.abs n)%Z -> is_zero theta = false ->
  gumbel_copula_sample n theta s = (Raise OverflowError, s).
Proof.
  intros Hn Hz; unfold gumbel_copula_sample, draw_candidates.
  apply bind_raise.
  erewrite bind_ok
    by (unfold lift, alpha_stable, py_truediv; rewrite Hz; reflexivity).
  apply bind_raise.
  unfold lift; rewrite n_sample_overflow by assumption; reflexivity.
Qed.

Lemma mask_select_all_true {A B : Type} (g : B -> A) (K : list B) :
  mask_select (map g K) (map (fun _ => true) K) = map g K.
Proof. induction K; simpl; congruence. Qed.

(** X7: the filter is idempotent: applying lines 70 to 73 to the two columns of
    a returned batch gives that batch again. *)
Theorem filter_idempotent n theta s B s' :
  (0 <= n)%Z ->
  gumbel_copula_sample n theta s = (Ok B, s') ->
  exists A1 A2,
    column 0 B = Some A1 /\ column 1 B = Some A2 /\
    select_valid n A1 A2 = Ok B.
Proof.
  intros Hn H; apply gumbel_batch in H as (c & Hc & L12 & _ & ->).
  set (K := kept_indices n (valid_mask (cU1 c) (cU2 c))).
  exists (map (fun i => nth i (cU1 c) fzero) K),
         (map (fun i => nth i (cU2 c) fzero) K).
  unfold column; simpl; rewrite !map_map; simpl.
  split; [reflexivity|]; split; [reflexivity|].
  assert (Hm : valid_mask (map (fun i => nth i (cU1 c) fzero) K)
                          (map (fun i => nth i (cU2 c) fzero) K)
               = map (fun _ => true) K).
  { rewrite valid_mask_zip, zipWith_map_same.
    apply map_ext_in; intros i Hi.
    apply kept_indices_valid in Hi as [Hi Hv].
    rewrite valid_mask_length in Hi by assumption.
    destruct (nth_error_lt (cU1 c) i Hi) as [u1 H1].
    destruct (nth_error_lt (cU2 c) i) as [u2 H2]; [lia|].
    rewrite (valid_mask_nth _ _ _ _ _ H1 H2) in Hv.
    now rewrite (nth_error_nth _ _ _ H1), (nth_error_nth _ _ _ H2). }
  assert (HK : length K <= Z.to_nat n).
  { unfold K; rewrite kept_indices_length by assumption; lia. }
  unfold select_valid, column_stack; rewrite Hm, !mask_select_all_true.
  rewrite !slice_to_nonneg by assumption.
  rewrite !firstn_all2 by (rewrite length_map; exact HK).
  rewrite !length_map, Nat.eqb_refl, zipWith_map_same; reflexivity.
Qed.

Section Panel.

Variable pareto_ppf : float -> float -> float.

(** X9: in the script, both Pareto margins of the dependent panel have as
    many points as the batch has rows, [min n v] for [v] valid candidates,
    and the tail count is at most that: the panel can hold fewer than the
    [n] points of the independent panel, and the script does not check. *)
Theorem dependent_panel_size alpha t n theta s U s' :
  (0 <= n)%Z ->
  gumbel_copula_sample n theta s = (Ok U, s') ->
  exists c X1 X2,
    draw_candidates n theta s = (Ok c, s') /\
    pareto_margins pareto_ppf alpha U = Some (X1, X2) /\
    length X1 =
      Nat.min (Z.to_nat n) (count_true (valid_mask (cU1 c) (cU2 c))) /\
    length X2 = length X1 /\
    tail_count t X1 X2 <= length X1 <= Z.to_nat n.
Proof.
  intros Hn H; apply gumbel_batch in H as (c & Hc & L12 & _ & ->).
  exists c; unfold pareto_margins, column; simpl.
  eexists; eexists; split; [eassumption|]; split; [reflexivity|].
  rewrite !length_map, kept_indices_length by assumption.
  repeat split; try lia.
  unfold tail_count.
  etransitivity; [apply count_true_le|].
  rewrite zipWith_length, !length_map, kept_indices_length by assumption.
  lia.
Qed.

End Panel.

End Beyond.

(** *** The further properties at the recorded runs *)

Section RecordedFurther.

Import Replay Recorded.

Lemma zero_theta_raises_witness :
  is_zero fzero = true /\
  run tape_one 5 fzero = (Raise ZeroDivisionError, tape_one).
Proof.
  split; [reflexivity|].
  apply (@zero_theta_raises _ (numpy tape_one) 5 fzero tape_one).
  reflexivity.
Defined.

Lemma infinite_theta_consumes_draws_witness :
  is_inf (S754_infinity false) = true /\ (0 <= 2 < 2 ^ 51)%Z /\
  run tape_three 2 (S754_infinity false) =
  (Raise ZeroDivisionError,
   snd (draws (Z.to_nat (3 * 2 / 2))
          (@exponential1 _ (numpy tape_three) fone)
          (snd (draws (Z.to_nat (3 * 2 / 2))
                  (@uniform1 _ (numpy tape_three) f1e_10 (fsub fpi f1e_10))
                  tape_three)))).
Proof.
  split; [reflexivity|]; split; [lia|].
  apply (@infinite_theta_consumes_draws _ (numpy tape_three) 2
           (S754_infinity false) tape_three); [reflexivity | lia].
Defined.

Lemma draws_independent_of_theta_witness :
  @draw_candidates _ (Recorded.numpy tape_pair) 1 fone tape_pair
  = (Ok pair_at_one, []) /\
  @draw_candidates _ (Recorded.numpy tape_pair) 1 f2_0 tape_pair
  = (Ok pair_at_two, []) /\
  cW1 pair_at_one = cW1 pair_at_two /\ cW2 pair_at_one = cW2 pair_at_two /\
  cE1 pair_at_one = cE1 pair_at_two /\ cE2 pair_at_one = cE2 pair_at_two /\
  @nil float = [].
Proof.
  split; [vm_compute; reflexivity|]; split; [vm_compute; reflexivity|].
  apply (@draws_independent_of_theta _ (Recorded.numpy tape_pair) 1 fone f2_0
           tape_pair pair_at_one [] pair_at_two []);
    vm_compute; reflexivity.
Defined.

Lemma batch_is_first_valid_pairs_witness :
  (0 <= 2)%Z /\
  run tape_three 2 fone = (Ok batch_three, []) /\
  exists c,
    run_candidates tape_three 2 fone = (Ok c, []) /\
    rows batch_three =
    firstn (Z.to_nat 2)
      (map (fun p => [fst p; snd p])
         (filter (fun p => valid_pair (fst p) (snd p))
            (combine (cU1 c) (cU2 c)))).
Proof.
  split; [lia|]; split; [vm_compute; reflexivity|].
  apply (@batch_is_first_valid_pairs _ (numpy tape_three) 2 fone tape_three
           batch_three []); [lia | vm_compute; reflexivity].
Defined.

Lemma full_batch_iff_witness :
  (0 <= 2 < 2 ^ 51)%Z /\
  run tape_three 2 fone = (Ok batch_three, []) /\
  exists c,
    run_candidates tape_three 2 fone = (Ok c, []) /\
    (fst (shape batch_three) = Z.to_nat 2 <->
     length (cU1 c) - count_true (valid_mask (cU1 c) (cU2 c))
     <= Z.to_nat (2 / 2)).
Proof.
  split; [lia|]; split; [vm_compute; reflexivity|].
  apply (@full_batch_iff _ (numpy tape_three) 2 fone tape_three
           batch_three []); [lia | vm_compute; reflexivity].
Defined.

Lemma columns_are_filtered_arrays_witness :
  run tape_three 2 fone = (Ok batch_three, []) /\
  exists c,
    run_candidates tape_three 2 fone = (Ok c, []) /\
    column 0 batch_three =
      Some (slice_to 2 (mask_select (cU1 c) (valid_mask (cU1 c) (cU2 c))))
    /\
    column 1 batch_three =
      Some (slice_to 2 (mask_select (cU2 c) (valid_mask (cU1 c) (cU2 c))))
    /\
    column 2 batch_three = None.
Proof.
  split; [vm_compute; reflexivity|].
  apply (@columns_are_filtered_arrays _ (numpy tape_three) 2 fone tape_three
           batch_three []).
  vm_compute; reflexivity.
Defined.

Lemma filter_idempotent_witness :
  (0 <= 2)%Z /\
  run tape_three 2 fone = (Ok batch_three, []) /\
  exists A1 A2,
    column 0 batch_three = Some A1 /\ column 1 batch_three = Some A2 /\
    select_valid 2 A1 A2 = Ok batch_three.
Proof.
  split; [lia|]; split; [vm_compute; reflexivity|].
  apply (@filter_idempotent _ (numpy tape_three) 2 fone tape_three
           batch_three []); [lia | vm_compute; reflexivity].
Defined.

Lemma huge_count_overflows_witness :
  (2 ^ 1024 <= Z.abs (2 ^ 1024))%Z /\ is_zero fone = false /\
  run tape_one (2 ^ 1024) fone = (Raise OverflowError, tape_one).
Proof.
  split; [vm_compute; discriminate|]; split; [reflexivity|].
  apply (@huge_count_overflows _ (numpy tape_one) (2 ^ 1024) fone tape_one);
    [vm_compute; discriminate | reflexivity].
Defined.

Lemma dependent_panel_size_witness :
  (0 <= 2)%Z /\
  run tape_three 2 fone = (Ok batch_three, []) /\
  exists c X1 X2,
    run_candidates tape_three 2 fone = (Ok c, []) /\
    pareto_margins ppf f1_5 batch_three = Some (X1, X2) /\
    length X1 =
      Nat.min (Z.to_nat 2) (count_true (valid_mask (cU1 c) (cU2 c))) /\
    length X2 = length X1 /\
    tail_count tail_threshold X1 X2 <= length X1 <= Z.to_nat 2.
Proof.
  split; [lia|]; split; [vm_compute; reflexivity|].
  apply (@dependent_panel_size _ (numpy tape_three) ppf f1_5 tail_threshold
           2 fone tape_three batch_three []);
    [lia | vm_compute; reflexivity].
Defined.

End RecordedFurther.
